(** * Lamppost weather scraper: a shallow embedding of [scrape.py]

    The development follows the source file: the column matcher, the
    datetime assembler, the device record extractor, the collection
    driver and the reconciliation step of [main], preceded by the Python
    values they work on and followed by the facts proved about them.

    - A Python [str] is a [string]: the sequence of its UTF-8 bytes.
      Substring tests are exact on it; whitespace and decimal digits are
      those of Unicode 14, the tables of CPython 3.11; case folding is
      ASCII only.
    - A computation that may raise is a value of [res]; [try]/[except] is
      [try_except].
    - A Python dictionary is a finite map ([gmap]); a pandas [Series]
      (one row) is an ordered list of labelled cells, since
      [find_gdb_latlon] walks the labels in order.
    - A float is an IEEE binary64 value ([spec_float] with [prec = 53],
      [emax = 1024]); conversions round to nearest, ties to even.
    - [print] and the accesses to the output path are recorded in an
      [effects] value threaded through [main]. *)

From Stdlib Require Import ZArith String Ascii.
From Stdlib Require Import Floats.SpecFloat.
From stdpp Require Import base decidable option list gmap strings pretty.

Local Open Scope Z_scope.

(** ** Python strings *)

Module PyStr.

(** [needle in hay] for two [str] values. *)
Fixpoint contains (needle hay : string) : bool :=
  String.prefix needle hay ||
  match hay with
  | EmptyString => false
  | String _ rest => contains needle rest
  end.

(** The specification of [in]: the needle occurs literally somewhere. *)
Definition is_substring (needle hay : string) : Prop :=
  exists before after, hay = before +:+ needle +:+ after.

(** The UTF-8 encoding of a code point. *)
Definition utf8 (cp : N) : string :=
  let byte n := String (ascii_of_N n) in
  (if cp <? 128 then byte cp EmptyString
   else if cp <? 2048 then
     byte (192 + cp / 64) (byte (128 + cp mod 64) EmptyString)
   else if cp <? 65536 then
     byte (224 + cp / 4096)
       (byte (128 + cp / 64 mod 64) (byte (128 + cp mod 64) EmptyString))
   else
     byte (240 + cp / 262144)
       (byte (128 + cp / 4096 mod 64)
          (byte (128 + cp / 64 mod 64)
             (byte (128 + cp mod 64) EmptyString))))%N.

(** The code points for which [str.isspace] holds, the characters that
    [str.strip()] removes: TAB, LF, VT, FF, CR, the separators FS .. US,
    the space, and the whitespace outside ASCII (NEL, the no-break space,
    the Ogham space mark, U+2000 .. U+200A, the line and paragraph
    separators, the narrow no-break space, the medium mathematical space
    and the ideographic space). *)
Definition whitespace : list N :=
  [9; 10; 11; 12; 13; 28; 29; 30; 31; 32; 133; 160; 5760;
   8192; 8193; 8194; 8195; 8196; 8197; 8198; 8199; 8200; 8201; 8202;
   8232; 8233; 8239; 8287; 12288]%N.

Definition whitespace_encodings : list string := utf8 <$> whitespace.

(** The rest of [s] after the prefix [p], when [s] starts with [p]. *)
Fixpoint after_prefix (p s : string) : option string :=
  match p, s with
  | EmptyString, _ => Some s
  | String a p', String b s' =>
      if Ascii.eqb a b then after_prefix p' s' else None
  | String _ _, EmptyString => None
  end.

(** The rest of [s] after the first of the given prefixes it starts
    with. *)
Fixpoint after_any (prefixes : list string) (s : string) : option string :=
  match prefixes with
  | [] => None
  | p :: others =>
      match after_prefix p s with
      | Some rest => Some rest
      | None => after_any others s
      end
  end.

(** The rest of [s] after one whitespace character at its start. *)
Definition after_space (s : string) : option string :=
  after_any whitespace_encodings s.

Fixpoint lstrip_go (fuel : nat) (s : string) : string :=
  match fuel with
  | O => s
  | S fuel =>
      match after_space s with
      | Some rest => lstrip_go fuel rest
      | None => s
      end
  end.

(** [s.lstrip()]: every whitespace character takes at least one byte, so
    the length of [s] is fuel enough. *)
Definition lstrip (s : string) : string := lstrip_go (String.length s) s.

(** [s.rstrip()]: going from the right, a suffix is dropped as long as
    it is made of whitespace characters only. *)
Fixpoint rstrip (s : string) : string :=
  match s with
  | String c rest =>
      let kept := String c (rstrip rest) in
      if String.eqb (lstrip kept) EmptyString then EmptyString else kept
  | EmptyString => EmptyString
  end.

Definition strip (s : string) : string := rstrip (lstrip s).

Definition lower_char (c : ascii) : ascii :=
  let n := nat_of_ascii c in
  if ((65 <=? n) && (n <=? 90))%nat then ascii_of_nat (n + 32) else c.

(** [s.lower()]. Only ASCII letters are folded: no other character
    lowers to a letter of [lp_latitude] or [lp_longitude], so equality
    with those two names is decided exactly. *)
Fixpoint lower (s : string) : string :=
  match s with
  | String c rest => String (lower_char c) (lower rest)
  | EmptyString => EmptyString
  end.

End PyStr.

(** ** Column Matcher *)

(** The inner [for s in substrings] loop with its [break]. *)
Fixpoint all_substrings_in (substrings : list string) (col : string) : bool :=
  match substrings with
  | [] => true
  | s :: rest =>
      if negb (PyStr.contains s col) then false
      else all_substrings_in rest col
  end.

Fixpoint find_column_by_substring (columns substrings : list string)
  : option string :=
  match columns with
  | [] => None
  | col :: rest =>
      if all_substrings_in substrings col then Some col
      else find_column_by_substring rest substrings
  end.

(** A column qualifies when every required substring occurs in its name. *)
Definition qualifies (substrings : list string) (col : string) : Prop :=
  Forall (fun s => PyStr.is_substring s col) substrings.

(** ** Exceptions

    A computation that may raise is a value of [res]; [try_except] is a
    [try: ... except Exception: ...] block, which lets [SystemExit] (not an
    [Exception]) through. *)

Inductive exn :=
| ValueError
| TypeError
| OverflowError
| IndexError
| OSError
| SystemExit (code : Z).

Inductive res (A : Type) :=
| Ok (a : A)
| Raise (e : exn).
Arguments Ok {A} a.
Arguments Raise {A} e.

#[global] Instance res_ret : MRet res := fun _ a => Ok a.
#[global] Instance res_bind : MBind res := fun _ _ k m =>
  match m with
  | Ok a => k a
  | Raise e => Raise e
  end.
#[global] Instance res_fmap : FMap res := fun _ _ f m =>
  match m with
  | Ok a => Ok (f a)
  | Raise e => Raise e
  end.

Definition is_Exception (e : exn) : bool :=
  match e with
  | SystemExit _ => false
  | _ => true
  end.

Definition try_except {A} (body : res A) (handler : exn -> res A) : res A :=
  match body with
  | Ok a => Ok a
  | Raise e => if is_Exception e then handler e else Raise e
  end.

(** ** Floats *)

Module PyFloat.

Definition prec : Z := 53.
Definition emax : Z := 1024.

Definition is_digit (c : ascii) : bool :=
  let n := Z.of_nat (nat_of_ascii c) in (48 <=? n) && (n <=? 57).

Definition digit_value (c : ascii) : Z := Z.of_nat (nat_of_ascii c) - 48.

(** [float(n)] for an integer: round to nearest, ties to even;
    [OverflowError] beyond the largest finite double. *)
Definition of_Z (n : Z) : res spec_float :=
  match binary_normalize prec emax n 0 false with
  | S754_infinity _ => Raise OverflowError
  | f => Ok f
  end.

(** [int(f)]: truncation towards zero. *)
Definition to_Z (f : spec_float) : res Z :=
  match f with
  | S754_zero _ => Ok 0
  | S754_nan => Raise ValueError
  | S754_infinity _ => Raise OverflowError
  | S754_finite s m e => Ok (cond_Zopp s (Z.shiftl (Z.pos m) e))
  end.

(** The correctly rounded double nearest to [(-1)^s * m * 10^e10]. *)
Definition of_decimal (s : bool) (m e10 : Z) : spec_float :=
  match m with
  | Z.pos _ =>
      if 0 <=? e10
      then binary_normalize prec emax (cond_Zopp s (m * 10 ^ e10)) 0 s
      else
        let '(q, e, loc) :=
          SFdiv_core_binary prec emax m 0 (10 ^ (- e10)) 0 in
        binary_round_aux prec emax s q e loc
  | _ => S754_zero s
  end.

(** Underscores may separate digits ([1_000]); anywhere else they make
    the literal invalid. [prev] is the previous character. *)
Fixpoint drop_underscores (prev : option ascii) (s : string)
  : option string :=
  match s with
  | EmptyString =>
      if decide (prev = Some "_"%char) then None else Some EmptyString
  | String c rest =>
      if decide (c = "_"%char) then
        match prev with
        | Some d =>
            if is_digit d then drop_underscores (Some c) rest else None
        | None => None
        end
      else if bool_decide (prev = Some "_"%char) && negb (is_digit c)
      then None
      else String c <$> drop_underscores (Some c) rest
  end.

(** Reads a maximal run of digits: its value so far, how many digits
    were read, and the rest of the input. *)
Fixpoint digits (acc : Z) (count : Z) (s : string) : Z * Z * string :=
  match s with
  | String c rest =>
      if is_digit c then digits (10 * acc + digit_value c) (count + 1) rest
      else (acc, count, s)
  | EmptyString => (acc, count, s)
  end.

Definition sign (s : string) : bool * string :=
  match s with
  | String "-" rest => (true, rest)
  | String "+" rest => (false, rest)
  | _ => (false, s)
  end.

(** The optional exponent part; it must reach the end of the input. *)
Definition exponent (s : string) : option Z :=
  match s with
  | EmptyString => Some 0
  | String c rest =>
      if decide (c = "e"%char \/ c = "E"%char) then
        let '(neg, rest) := sign rest in
        match digits 0 0 rest with
        | (e, n, EmptyString) =>
            if 0 <? n then Some (cond_Zopp neg e) else None
        | _ => None
        end
      else None
  end.

(** A decimal literal without its sign: digits, an optional point and
    more digits (at least one digit overall), an optional exponent. *)
Definition decimal (s : string) : option (Z * Z) :=
  let '(int_part, n_int, rest) := digits 0 0 s in
  let '(mant, n_frac, rest) :=
    match rest with
    | String "." rest' => digits int_part 0 rest'
    | _ => (int_part, 0, rest)
    end in
  if 0 <? n_int + n_frac then
    e ← exponent rest; Some (mant, e - n_frac)
  else None.

Definition special (neg : bool) (s : string) : option spec_float :=
  let name := PyStr.lower s in
  if decide (name = "inf" \/ name = "infinity") then Some (S754_infinity neg)
  else if decide (name = "nan") then Some S754_nan
  else None.

(** The zero of every set of decimal digits outside ASCII (the code
    points of category Nd with value 0); the nine code points after a
    zero are the digits 1 to 9 of its set. *)
Definition decimal_zeros : list N :=
  [1632; 1776; 1984; 2406; 2534; 2662; 2790; 2918; 3046; 3174; 3302; 3430;
   3558; 3664; 3792; 3872; 4160; 4240; 6112; 6160; 6470; 6608; 6784; 6800;
   6992; 7088; 7232; 7248; 42528; 43216; 43264; 43472; 43504; 43600; 44016;
   65296; 66720; 68912; 69734; 69872; 69942; 70096; 70384; 70736; 70864;
   71248; 71360; 71472; 71904; 72016; 72784; 73040; 73120; 92768; 92864;
   93008; 120782; 120792; 120802; 120812; 120822; 123200; 123632; 125264;
   130032]%N.

Definition decimal_digit_encodings : list (string * ascii) :=
  zero ← decimal_zeros;
  (fun i => (PyStr.utf8 (zero + i), ascii_of_N (48 + i))) <$>
    [0; 1; 2; 3; 4; 5; 6; 7; 8; 9]%N.

(** The ASCII digit for, and the rest of [s] after, one decimal digit
    outside ASCII at its start. *)
Fixpoint after_digit (table : list (string * ascii)) (s : string)
  : option (ascii * string) :=
  match table with
  | [] => None
  | (encoding, d) :: others =>
      match PyStr.after_prefix encoding s with
      | Some rest => Some (d, rest)
      | None => after_digit others s
      end
  end.

(** What [float] first does to a [str]: characters below 127 stay,
    whitespace becomes a space, a decimal digit becomes its ASCII digit,
    and the text is cut after a [?] put for the first character that is
    none of these. *)
Fixpoint to_ascii (fuel : nat) (s : string) : string :=
  match fuel, s with
  | S fuel, String c rest =>
      if (N_of_ascii c <? 127)%N then String c (to_ascii fuel rest)
      else
        match PyStr.after_space s with
        | Some rest' => String " " (to_ascii fuel rest')
        | None =>
            match after_digit decimal_digit_encodings s with
            | Some (d, rest') => String d (to_ascii fuel rest')
            | None => "?"
            end
        end
  | _, _ => EmptyString
  end.

(** The whitespace of the C locale, which [float] skips around the
    number: TAB, LF, VT, FF, CR and the space (not FS .. US). *)
Definition c_space (c : ascii) : bool :=
  let n := Z.of_nat (nat_of_ascii c) in
  ((9 <=? n) && (n <=? 13)) || (n =? 32).

Fixpoint c_lstrip (s : string) : string :=
  match s with
  | String c rest => if c_space c then c_lstrip rest else s
  | EmptyString => EmptyString
  end.

Fixpoint c_rstrip (s : string) : string :=
  match s with
  | String c rest =>
      match c_rstrip rest with
      | EmptyString => if c_space c then EmptyString else String c EmptyString
      | kept => String c kept
      end
  | EmptyString => EmptyString
  end.

(** [float(s)] for a string: digits and whitespace outside ASCII are
    replaced by their ASCII counterparts, underscores between digits and
    the surrounding whitespace are dropped, and what is left must be one
    decimal literal, [inf], [infinity] or [nan], with an optional sign;
    anything else is a [ValueError]. *)
Definition of_string (s : string) : res spec_float :=
  match drop_underscores None (to_ascii (String.length s) s) with
  | Some text =>
      let '(neg, body) := sign (c_rstrip (c_lstrip text)) in
      match decimal body with
      | Some (m, e10) => Ok (of_decimal neg m e10)
      | None =>
          match special neg body with
          | Some f => Ok f
          | None => Raise ValueError
          end
      end
  | None => Raise ValueError
  end.

End PyFloat.

(** ** Table cells

    The scalar values a pandas cell holds in this program: [None], a
    boolean, an integer, a float (NaN included) or a string. *)

Inductive cell :=
| CNone
| CBool (b : bool)
| CInt (n : Z)
| CFloat (f : spec_float)
| CStr (s : string).

(** [pd.isna(v)]; [pd.notna] is its negation. *)
Definition isna (v : cell) : bool :=
  match v with
  | CNone | CFloat S754_nan => true
  | _ => false
  end.

(** [float(v)]. *)
Definition py_float (v : cell) : res spec_float :=
  match v with
  | CNone => Raise TypeError
  | CBool b => PyFloat.of_Z (if b then 1 else 0)
  | CInt n => PyFloat.of_Z n
  | CFloat f => Ok f
  | CStr s => PyFloat.of_string s
  end.

(** A pandas [Series] holding one row: labelled cells, in index order.
    Labels are unique in every row this program reads ([read_csv] and
    [read_file] rename repeated headers). *)
Definition Series := list (string * cell).

(** [label in row] and [row[label]]. *)
Fixpoint Series_lookup (row : Series) (label : string) : option cell :=
  match row with
  | [] => None
  | (l, v) :: rest =>
      if decide (l = label) then Some v else Series_lookup rest label
  end.

(** [row.get(key)]: [None] for an unknown label, and for the key [None]. *)
Definition Series_get (row : Series) (key : option string) : cell :=
  match key with
  | Some label => default CNone (Series_lookup row label)
  | None => CNone
  end.

(** [d.get(key)] on a dict whose values are column names or [None]. *)
Definition dict_get (d : gmap string (option string)) (key : string)
  : option string :=
  default None (d !! key).

(** Truth value of a column name or [None]: [None] and [""] are false. *)
Definition truthy (v : option string) : bool :=
  match v with
  | Some name => negb (String.eqb name "")
  | None => false
  end.

(** ** [datetime] *)

Record datetime := mk_datetime {
  year : Z; month : Z; day : Z; hour : Z; minute : Z; second : Z
}.

Definition is_leap (y : Z) : bool :=
  (y mod 4 =? 0) && (negb (y mod 100 =? 0) || (y mod 400 =? 0)).

Definition days_in_month (y m : Z) : Z :=
  if m =? 2 then (if is_leap y then 29 else 28)
  else if (m =? 4) || (m =? 6) || (m =? 9) || (m =? 11) then 30
  else 31.

Definition fits_c_int (n : Z) : bool := (- 2 ^ 31 <=? n) && (n <? 2 ^ 31).

(** The constructor [datetime(y, mo, d, h, mi, s)]. *)
Definition datetime_new (y mo d h mi s : Z) : res datetime :=
  if negb (forallb fits_c_int [y; mo; d; h; mi; s]) then Raise OverflowError
  else if (1 <=? y) && (y <=? 9999) && (1 <=? mo) && (mo <=? 12)
          && (1 <=? d) && (d <=? days_in_month y mo)
          && (0 <=? h) && (h <=? 23) && (0 <=? mi) && (mi <=? 59)
          && (0 <=? s) && (s <=? 59)
  then Ok (mk_datetime y mo d h mi s)
  else Raise ValueError.

Fixpoint zeros (n : nat) : string :=
  match n with
  | O => EmptyString
  | S n => String "0" (zeros n)
  end.

(** A non-negative number in decimal, zero-filled on the left. *)
Definition zero_pad (width : nat) (n : Z) : string :=
  let text := pretty n in
  zeros (width - String.length text) +:+ text.

(** One [%x] directive of [strftime]. CPython hands the format to the
    C library, and glibc writes [%Y] as the year in decimal without
    zero-fill: year 999 gives [999], not [0999]. *)
Definition strftime_directive (dt : datetime) (d : ascii) : string :=
  if decide (d = "Y"%char) then pretty (year dt)
  else if decide (d = "m"%char) then zero_pad 2 (month dt)
  else if decide (d = "d"%char) then zero_pad 2 (day dt)
  else if decide (d = "H"%char) then zero_pad 2 (hour dt)
  else if decide (d = "M"%char) then zero_pad 2 (minute dt)
  else if decide (d = "S"%char) then zero_pad 2 (second dt)
  else String "%" (String d EmptyString).

Fixpoint strftime (dt : datetime) (format : string) : string :=
  match format with
  | String "%" (String d rest) => strftime_directive dt d +:+ strftime dt rest
  | String c rest => String c (strftime dt rest)
  | EmptyString => EmptyString
  end.

(** ** Datetime Assembler *)

Definition to_int_safe (v : cell) : res (option Z) :=
  try_except
    (if isna v then Ok None
     else f ← py_float v; n ← PyFloat.to_Z f; Ok (Some n))
    (fun _ => Ok None).

(** [x or 0] for [x] an integer or [None]. *)
Definition or_0 (x : option Z) : Z :=
  match x with
  | Some n => if n =? 0 then 0 else n
  | None => 0
  end.

Definition build_measurement_datetime_from_row_using_columns
    (row : Series) (cols_map : gmap string (option string))
  : res (option string) :=
  try_except
    (let y_col := dict_get cols_map "measurement_year" in
     let m_col := dict_get cols_map "measurement_month" in
     let d_col := dict_get cols_map "measurement_day" in
     if negb (truthy y_col && truthy m_col && truthy d_col) then Ok None
     else
       y ← to_int_safe (Series_get row y_col);
       mo ← to_int_safe (Series_get row m_col);
       da ← to_int_safe (Series_get row d_col);
       match y, mo, da with
       | Some y, Some mo, Some da =>
           h ← or_0 <$> to_int_safe
                 (Series_get row (dict_get cols_map "measurement_hour"));
           mi ← or_0 <$> to_int_safe
                 (Series_get row (dict_get cols_map "measurement_minute"));
           s ← or_0 <$> to_int_safe
                 (Series_get row (dict_get cols_map "measurement_second"));
           dt ← datetime_new y mo da h mi s;
           Ok (Some (strftime dt "%Y-%m-%dT%H:%M:%S"))
       | _, _, _ => Ok None
       end)
    (fun _ => Ok None).

(** *** Vocabulary of the assembler's specification *)

(** A semantic field is resolved when the column map gives it a
    (non-empty) column name. *)
Definition resolved (cols_map : gmap string (option string))
    (key col : string) : Prop :=
  cols_map !! key = Some (Some col) /\ col <> "".

Definition unresolved (cols_map : gmap string (option string))
    (key : string) : Prop :=
  forall col, ~ resolved cols_map key col.

(** The cell is present and numeric, and truncates to the integer [n]. *)
Definition reads_as (v : cell) (n : Z) : Prop :=
  isna v = false /\
  exists f, py_float v = Ok f /\ PyFloat.to_Z f = Ok n.

(** The cell is missing or not numeric. *)
Definition unusable (v : cell) : Prop := forall n, ~ reads_as v n.

(** What a year, month or day field contributes: nothing when its column
    is unresolved or its cell unusable, the integer read otherwise. *)
Inductive date_part (row : Series) (cols_map : gmap string (option string))
    (key : string) : option Z -> Prop :=
| date_part_unresolved :
    unresolved cols_map key -> date_part row cols_map key None
| date_part_unusable col :
    resolved cols_map key col ->
    unusable (Series_get row (Some col)) ->
    date_part row cols_map key None
| date_part_value col n :
    resolved cols_map key col ->
    reads_as (Series_get row (Some col)) n ->
    date_part row cols_map key (Some n).

(** What an hour, minute or second field contributes: 0 when its column is
    unresolved or its cell unusable, the integer read otherwise. *)
Inductive time_part (row : Series) (cols_map : gmap string (option string))
    (key : string) : Z -> Prop :=
| time_part_unresolved :
    dict_get cols_map key = None -> time_part row cols_map key 0
| time_part_unusable col :
    dict_get cols_map key = Some col ->
    unusable (Series_get row (Some col)) ->
    time_part row cols_map key 0
| time_part_value col n :
    dict_get cols_map key = Some col ->
    reads_as (Series_get row (Some col)) n ->
    time_part row cols_map key n.

Definition valid_date (y mo d : Z) : Prop :=
  1 <= y <= 9999 /\ 1 <= mo <= 12 /\ 1 <= d <= days_in_month y mo.

Definition valid_time (h mi s : Z) : Prop :=
  0 <= h <= 23 /\ 0 <= mi <= 59 /\ 0 <= s <= 59.

#[global] Instance valid_date_dec y mo d : Decision (valid_date y mo d).
Proof. unfold valid_date. apply _. Defined.
#[global] Instance valid_time_dec h mi s : Decision (valid_time h mi s).
Proof. unfold valid_time. apply _. Defined.

(** The text the assembler's format gives: the year in decimal as it is,
    then month, day, hour, minute and second in two digits each. *)
Definition timestamp_text (y mo d h mi s : Z) : string :=
  pretty y +:+ "-" +:+ zero_pad 2 mo +:+ "-" +:+ zero_pad 2 d +:+ "T" +:+
  zero_pad 2 h +:+ ":" +:+ zero_pad 2 mi +:+ ":" +:+ zero_pad 2 s.





(** [text] consists of exactly [width] decimal digits. *)
Definition all_digits (width : nat) (text : string) : bool :=
  (String.length text =? width)%nat
  && forallb PyFloat.is_digit (list_ascii_of_string text).

(** ** Device Record Extractor *)

(** A parsed feed: its header and its rows, one cell per column, each
    cell as its column stores it. *)
Record DataFrame := mk_frame {
  columns : list string;
  frame_rows : list (list cell)
}.

Definition is_number (v : cell) : bool :=
  match v with
  | CInt _ | CFloat _ => true
  | _ => false
  end.

Definition is_float (v : cell) : bool :=
  match v with
  | CFloat _ => true
  | _ => false
  end.

(** An integer as a member of a float row. *)
Definition as_float (v : cell) : cell :=
  match v with
  | CInt n => CFloat (binary_normalize PyFloat.prec PyFloat.emax n 0 false)
  | _ => v
  end.

(** [df.iterrows()] builds each row from [df.values], which has one
    type for the whole frame: when every column is numeric and one of
    them holds floats, the integers of a row arrive as floats; in any
    other frame the cells arrive as they are stored. *)
Definition iterrows (df : DataFrame) : list Series :=
  let cells := concat (frame_rows df) in
  let upcast := forallb is_number cells && existsb is_float cells in
  (fun r => zip (columns df) (if upcast then as_float <$> r else r))
    <$> frame_rows df.

(** [df.iloc[0, 0]]. *)
Definition iloc_0_0 (df : DataFrame) : res cell :=
  match frame_rows df with
  | (v :: _) :: _ => Ok v
  | _ => Raise IndexError
  end.

Definition SEARCH_KEYS : gmap string (list string) :=
  list_to_map [
    ("lamppost_id", ["Lamppost ID"]);
    ("measurement_year", ["Data measurement"; "Year"]);
    ("measurement_month", ["Data measurement"; "Month"]);
    ("measurement_day", ["Data measurement"; "Day"]);
    ("measurement_hour", ["Data measurement"; "Hour"]);
    ("measurement_minute", ["Data measurement"; "Minute"]);
    ("measurement_second", ["Data measurement"; "Second"]);
    ("air_temperature", ["Air temperature"]);
    ("relative_humidity", ["Relative humidity"]);
    ("device_height", ["Device height"])
  ].

(** The [found] dictionary: for each semantic field, the matching column
    of the feed or [None]. *)
Definition find_columns (cols : list string) : gmap string (option string) :=
  let find key := find_column_by_substring cols (SEARCH_KEYS !!! key) in
  let found : gmap string (option string) := ∅ in
  let found := <["lamppost_id" := find "lamppost_id"]> found in
  let found := <["air_temperature" := find "air_temperature"]> found in
  let found := <["relative_humidity" := find "relative_humidity"]> found in
  let found := <["device_height" := find "device_height"]> found in
  foldl (fun found k => <[k := find k]> found) found
    ["measurement_year"; "measurement_month"; "measurement_day";
     "measurement_hour"; "measurement_minute"; "measurement_second"].

(** One row of the extractor's result. *)
Record ExtractedRow := mk_extracted {
  ex_lamppost_id : cell;
  ex_measurement_datetime : option string;
  ex_air_temperature_c : option spec_float;
  ex_relative_humidity_pct : option spec_float;
  ex_device_height_m : option spec_float
}.

(** [r.get(found[key]) if found[key] else None]. *)
Definition field_of (r : Series) (found : gmap string (option string))
    (key : string) : cell :=
  if truthy (found !!! key) then Series_get r (found !!! key) else CNone.

(** [float(v) if (v is not None and not pd.isna(v)) else None]. *)
Definition float_or_None (v : cell) : res (option spec_float) :=
  if isna v then Ok None else Some <$> py_float v.

Definition extract_row (found : gmap string (option string)) (r : Series)
  : res ExtractedRow :=
  let lamppost_id := field_of r found "lamppost_id" in
  measurement_datetime ←
    build_measurement_datetime_from_row_using_columns r found;
  let air_temp := field_of r found "air_temperature" in
  let rel_hum := field_of r found "relative_humidity" in
  let dev_height := field_of r found "device_height" in
  air_temperature_c ← float_or_None air_temp;
  relative_humidity_pct ← float_or_None rel_hum;
  device_height_m ← float_or_None dev_height;
  Ok {| ex_lamppost_id := if isna lamppost_id then CNone else lamppost_id;
        ex_measurement_datetime := measurement_datetime;
        ex_air_temperature_c := air_temperature_c;
        ex_relative_humidity_pct := relative_humidity_pct;
        ex_device_height_m := device_height_m |}.

(** The loop over [device_df.iterrows()]: the first row that raises ends
    it. *)
Fixpoint extract_rows (found : gmap string (option string))
    (rs : list Series) : res (list ExtractedRow) :=
  match rs with
  | [] => Ok []
  | r :: rest =>
      row ← extract_row found r;
      out_rows ← extract_rows found rest;
      Ok (row :: out_rows)
  end.

(** ** Effects of a run: what is printed, and what is done to the output
    path. *)

(** An output row; [I] is the type of the identifier column, a cell until
    [main] turns it into a string. *)
Record OutRow (I : Type) := mk_row {
  lamppost_id : I;
  measurement_datetime : option string;
  air_temperature_c : cell;
  relative_humidity_pct : cell;
  device_height_m : cell;
  lp_latitude : cell;
  lp_longitude : cell;
  source_url : option string
}.
Arguments mk_row {I}.
Arguments lamppost_id {I}.
Arguments measurement_datetime {I}.
Arguments air_temperature_c {I}.
Arguments relative_humidity_pct {I}.
Arguments device_height_m {I}.
Arguments lp_latitude {I}.
Arguments lp_longitude {I}.
Arguments source_url {I}.

(** The [print] calls of the program, one constructor each (the text of
    a caught exception is not modelled). *)
Inductive line :=
| PrintCell (v : cell)
| NoDeviceUrl (idx : nat)
| Fetching (idx : nat) (url : string)
| RequestFailed (idx : nat)
| ParseFailed (idx : nat)
| NoMatchingColumns (idx : nat)
| CannotReadLayer
| NoRowsCollected
| CouldNotReadExisting
| DedupReport (removed total : nat)
| SavedTo.

(** Calls made on the output path: [os.path.exists], [pd.read_csv] and
    [to_csv] with the dataset it is given. *)
Inductive fs_op :=
| PathExists
| ReadCsv
| ToCsv (data : list (OutRow (option string))).

Record effects := mk_effects {
  stdout : list line;
  fs_ops : list fs_op
}.

Definition no_effects : effects := mk_effects [] [].

(** Programs that print, touch the output path and may raise. *)
Definition M (A : Type) : Type := effects -> res A * effects.

#[global] Instance M_ret : MRet M := fun _ a st => (Ok a, st).
#[global] Instance M_bind : MBind M := fun _ _ k m st =>
  match m st with
  | (Ok a, st') => k a st'
  | (Raise e, st') => (Raise e, st')
  end.

Definition lift {A} (r : res A) : M A := fun st => (r, st).

Definition print (l : line) : M unit := fun st =>
  (Ok (), mk_effects (stdout st ++ [l]) (fs_ops st)).

Definition touch (op : fs_op) : M unit := fun st =>
  (Ok (), mk_effects (stdout st) (fs_ops st ++ [op])).

Definition extract_fields_from_device_df (device_df : DataFrame)
  : M (list ExtractedRow) :=
  first ← lift (iloc_0_0 device_df);
  print (PrintCell first);;
  let cols := columns device_df in
  let found := find_columns cols in
  lift (extract_rows found (iterrows device_df)).

(** ** The world outside the program

    The inputs of a run, and the library calls the program treats as
    black boxes. *)

(** The output file as [pd.read_csv(out_csv, dtype=str)] sees it: every
    cell is a string or missing. *)
Record StrFrame := mk_str_frame {
  str_columns : list string;
  str_rows : list (list (option string))
}.

Inductive prior_file :=
| NoFile
| Unreadable
| Readable (existing : StrFrame).

Record World := mk_world {
  (** [gpd.read_file(gdb_path, layer="smart_lamppost")]: the rows of the
      layer, or [None] when the call raises. *)
  layer : option (list Series);
  (** [session.get(url, timeout=15)] followed by [raise_for_status()], for
      the location at position [idx]: the body of the response, or [None]
      when either call raises. *)
  session_get : nat -> string -> option string;
  (** [try_parse_csv_bytes]: the parsed frame, or [None] when decoding or
      parsing raises. *)
  read_csv : string -> option DataFrame;
  (** The output path before the run. *)
  out_csv : prior_file;
  (** [str(f)] for a float [f]. *)
  float_repr : spec_float -> string;
  (** [pd.to_datetime(text, errors="coerce")] followed by [strftime]:
      [None] for a text pandas cannot turn into a timestamp. *)
  to_datetime : string -> option string;
  (** [combined.to_csv(out_csv, index=False)]: the exception the call
      raises (the path cannot be written), or [None] when the file is
      written. *)
  to_csv_raises : option exn
}.

(** [str(v)]. *)
Definition py_str (w : World) (v : cell) : string :=
  match v with
  | CNone => "None"
  | CBool b => if b then "True" else "False"
  | CInt n => pretty n
  | CFloat f => float_repr w f
  | CStr s => s
  end.

(** ** Collection Driver *)

Definition DEVICE_URL_COLUMNS : list string :=
  ["DEVICE_04_DATA_URL"; "DEVICE_02_DATA_URL"; "DEVICE_01_DATA_URL"].

Fixpoint first_active_url (w : World) (row : Series) (candidates : list string)
  : option string :=
  match candidates with
  | [] => None
  | c :: rest =>
      match Series_lookup row c with
      | Some v =>
          if negb (isna v) && negb (String.eqb (PyStr.strip (py_str w v)) "")
          then Some (PyStr.strip (py_str w v))
          else first_active_url w row rest
      | None => first_active_url w row rest
      end
  end.

Definition find_active_url_from_row (w : World) (row : Series)
  : option string :=
  first_active_url w row DEVICE_URL_COLUMNS.

(** The loop over [gdf_row.index]: a later matching label overwrites the
    value of an earlier one. *)
Definition find_gdb_latlon (gdf_row : Series) : cell * cell :=
  foldl
    (fun '(lat, lon) c =>
       let lat :=
         if decide (PyStr.lower c = "lp_latitude")
         then Series_get gdf_row (Some c) else lat in
       let lon :=
         if decide (PyStr.lower c = "lp_longitude")
         then Series_get gdf_row (Some c) else lon in
       (lat, lon))
    (CNone, CNone) (gdf_row.*1).

Definition float_cell (f : option spec_float) : cell :=
  from_option CFloat CNone f.

(** The extracted frame with the three columns [main] adds to it. *)
Definition attach (lat lon : cell) (url : string) (x : ExtractedRow)
  : OutRow cell :=
  {| lamppost_id := ex_lamppost_id x;
     measurement_datetime := ex_measurement_datetime x;
     air_temperature_c := float_cell (ex_air_temperature_c x);
     relative_humidity_pct := float_cell (ex_relative_humidity_pct x);
     device_height_m := float_cell (ex_device_height_m x);
     lp_latitude := if isna lat then CNone else lat;
     lp_longitude := if isna lon then CNone else lon;
     source_url := Some url |}.

(** The body of [for idx, gdf_row in gdf.iterrows()]; [collected] is the
    list of frames gathered so far. *)
Fixpoint collect (w : World) (idx : nat) (gdf : list Series)
    (collected : list (list (OutRow cell))) : M (list (list (OutRow cell))) :=
  match gdf with
  | [] => mret collected
  | gdf_row :: rest =>
      let continue := collect w (S idx) rest in
      let url := find_active_url_from_row w gdf_row in
      if negb (truthy url) then
        print (NoDeviceUrl idx);; continue collected
      else
        let url := default "" url in
        print (Fetching idx url);;
        match session_get w idx url with
        | None => print (RequestFailed idx);; continue collected
        | Some content =>
            match read_csv w content with
            | None => print (ParseFailed idx);; continue collected
            | Some device_df =>
                extracted ← extract_fields_from_device_df device_df;
                if bool_decide (extracted = []) then
                  print (NoMatchingColumns idx);; continue collected
                else
                  let '(lat, lon) := find_gdb_latlon gdf_row in
                  let extracted := attach lat lon url <$> extracted in
                  continue (collected ++ [extracted])
            end
        end
  end.

(** ** Reconciliation and persistence *)

(** The normalisation of the [measurement_datetime] column of the new
    rows. *)
Definition normalize_datetime {I} (w : World) (r : OutRow I) : OutRow I :=
  {| lamppost_id := lamppost_id r;
     measurement_datetime := measurement_datetime r ≫= to_datetime w;
     air_temperature_c := air_temperature_c r;
     relative_humidity_pct := relative_humidity_pct r;
     device_height_m := device_height_m r;
     lp_latitude := lp_latitude r;
     lp_longitude := lp_longitude r;
     source_url := source_url r |}.

Definition str_cell (v : option string) : cell := from_option CStr CNone v.

Fixpoint str_get (row : list (string * option string)) (name : string)
  : option string :=
  match row with
  | [] => None
  | (c, v) :: rest => if decide (c = name) then v else str_get rest name
  end.

(** One row of the existing file restricted to the output columns; a
    column the file lacks is entirely missing. *)
Definition existing_row (cols : list string) (r : list (option string))
  : OutRow cell :=
  let get name := str_get (zip cols r) name in
  {| lamppost_id := str_cell (get "lamppost_id");
     measurement_datetime := get "measurement_datetime";
     air_temperature_c := str_cell (get "air_temperature_c");
     relative_humidity_pct := str_cell (get "relative_humidity_pct");
     device_height_m := str_cell (get "device_height_m");
     lp_latitude := str_cell (get "lp_latitude");
     lp_longitude := str_cell (get "lp_longitude");
     source_url := get "source_url" |}.

Definition existing_rows (existing : StrFrame) : list (OutRow cell) :=
  existing_row (str_columns existing) <$> str_rows existing.

(** [astype(str).where(notna, None)] on the identifier column. *)
Definition coerce_id (w : World) (r : OutRow cell) : OutRow (option string) :=
  {| lamppost_id :=
       if isna (lamppost_id r) then None else Some (py_str w (lamppost_id r));
     measurement_datetime := measurement_datetime r;
     air_temperature_c := air_temperature_c r;
     relative_humidity_pct := relative_humidity_pct r;
     device_height_m := device_height_m r;
     lp_latitude := lp_latitude r;
     lp_longitude := lp_longitude r;
     source_url := source_url r |}.

(** The deduplication key; two missing values compare equal. *)
Definition dedup_key (r : OutRow (option string))
  : option string * option string :=
  (measurement_datetime r, lamppost_id r).

(** [drop_duplicates(subset=[...], keep="first")]: a row is dropped when
    its key was seen on an earlier row. *)
Fixpoint drop_duplicates (seen : gset (option string * option string))
    (data : list (OutRow (option string))) : list (OutRow (option string)) :=
  match data with
  | [] => []
  | r :: rest =>
      if decide (dedup_key r ∈ seen) then drop_duplicates seen rest
      else r :: drop_duplicates ({[dedup_key r]} ∪ seen) rest
  end.

(** The rows of the output file that take part in the merge: none when
    there is no file or it cannot be read. *)
Definition prior_rows (w : World) : list (OutRow cell) :=
  match out_csv w with
  | Readable existing => existing_rows existing
  | _ => []
  end.

(** The final dataset for given prior and new rows. *)
Definition reconcile (w : World) (prior new_df : list (OutRow cell))
  : list (OutRow (option string)) :=
  drop_duplicates ∅ (coerce_id w <$> (prior ++ new_df)).

Definition main (w : World) : M unit :=
  match layer w with
  | None => print CannotReadLayer;; lift (Raise (SystemExit 1))
  | Some gdf =>
      collected ← collect w 0 gdf [];
      if bool_decide (collected = []) then print NoRowsCollected
      else
        let new_df := normalize_datetime w <$> concat collected in
        touch PathExists;;
        combined ←
          match out_csv w with
          | NoFile => mret new_df
          | Unreadable =>
              touch ReadCsv;; print CouldNotReadExisting;; mret new_df
          | Readable existing =>
              touch ReadCsv;; mret (existing_rows existing ++ new_df)
          end;
        let combined := coerce_id w <$> combined in
        let before := length combined in
        let combined := drop_duplicates ∅ combined in
        let after := length combined in
        print (DedupReport (before - after) after);;
        touch (ToCsv combined);;
        match to_csv_raises w with
        | Some e => lift (Raise e)
        | None => mret ()
        end;;
        print SavedTo
  end.

(** The rows newly collected by a run, after normalisation: what [main]
    calls [new_df]. *)
Definition new_rows (w : World) : list (OutRow cell) :=
  match layer w with
  | Some gdf =>
      match collect w 0 gdf [] no_effects with
      | (Ok collected, _) => normalize_datetime w <$> concat collected
      | _ => []
      end
  | None => []
  end.

(** The first row of [data] carrying the key [k]. *)
Definition first_with_key (k : option string * option string)
    (data : list (OutRow (option string))) : option (OutRow (option string)) :=
  snd <$> list_find (fun r => dedup_key r = k) data.

(** A program that leaves the output path alone. *)
Definition quiet {A} (m : M A) : Prop :=
  forall st, fs_ops (m st).2 = fs_ops st.

(** The labels of a row that are [name] up to case, in index order. *)
Definition labels_matching (name : string) (row : Series) : list string :=
  filter (fun c => PyStr.lower c = name) (row.*1).

(** The cell under the last of the given labels, [None] when there is
    none. *)
Definition cell_at_last (row : Series) (labels : list string) : cell :=
  from_option (fun c => Series_get row (Some c)) CNone (last labels).

(** ** Sample inputs

    Concrete worlds on which the program is run in the examples below.
    The library stand-ins are only as complete as the samples need: no
    sample has a float identifier or URL, and every timestamp text is one
    that the assembler produced. *)

Module Sample.

Definition whole_float_repr (f : spec_float) : string :=
  match PyFloat.to_Z f with
  | Ok n => pretty n +:+ ".0"
  | Raise _ => "nan"
  end.

Definition number_at (text : string) (pos len : nat) : option Z :=
  match PyFloat.digits 0 0 (String.substring pos len text) with
  | (n, count, EmptyString) =>
      if count =? Z.of_nat len then Some n else None
  | _ => None
  end.

(** The stand-in for [pd.to_datetime] on the texts of the samples: a
    timestamp [YYYY-MM-DDTHH:MM:SS] with a year of four digits comes back
    unchanged; no sample holds a text of another form. *)
Definition iso_to_datetime (text : string) : option string :=
  y ← number_at text 0 4; mo ← number_at text 5 2; d ← number_at text 8 2;
  h ← number_at text 11 2; mi ← number_at text 14 2; s ← number_at text 17 2;
  match datetime_new y mo d h mi s with
  | Ok dt =>
      if bool_decide (strftime dt "%Y-%m-%dT%H:%M:%S" = text)
      then Some text else None
  | Raise _ => None
  end.

Fixpoint lookup_text {A} (table : list (string * A)) (key : string)
  : option A :=
  match table with
  | [] => None
  | (k, v) :: rest => if decide (k = key) then Some v else lookup_text rest key
  end.

(** A world given by its locations, the bodies served per URL, the frames
    those bodies parse to, and the output file, which can be written. *)
Definition world (locations : list Series) (net : list (string * string))
    (parsed : list (string * DataFrame)) (prior : prior_file) : World :=
  {| layer := Some locations;
     session_get := fun _ url => lookup_text net url;
     read_csv := lookup_text parsed;
     out_csv := prior;
     float_repr := whole_float_repr;
     to_datetime := iso_to_datetime;
     to_csv_raises := None |}.

Definition location (url : string) (lat lon : cell) : Series :=
  [("DEVICE_04_DATA_URL", CStr url); ("LP_LATITUDE", lat);
   ("LP_LONGITUDE", lon)].

Definition no_url_location : Series :=
  [("DEVICE_04_DATA_URL", CNone); ("LP_LATITUDE", CInt 22);
   ("LP_LONGITUDE", CInt 114)].

Definition dec (m e10 : Z) : cell := CFloat (PyFloat.of_decimal false m e10).

(** A well-formed one-row feed. *)
Definition good_csv : string :=
  "Lamppost ID,Data measurement Year,Data measurement Month,Data measurement Day,Air temperature (C),Relative humidity (%),Device height (m)
LP1,2024,3,5,21.5,60.0,3.2
".

Definition good_frame : DataFrame :=
  {| columns := ["Lamppost ID"; "Data measurement Year";
                 "Data measurement Month"; "Data measurement Day";
                 "Air temperature (C)"; "Relative humidity (%)";
                 "Device height (m)"];
     frame_rows := [[CStr "LP1"; CInt 2024; CInt 3; CInt 5;
                     dec 215 (-1); dec 600 (-1); dec 32 (-1)]] |}.

(** A feed with a header and no data row. *)
Definition header_only_csv : string :=
  "Lamppost ID,Air temperature (C)
".

Definition header_only_frame : DataFrame :=
  {| columns := ["Lamppost ID"; "Air temperature (C)"]; frame_rows := [] |}.

(** A feed whose temperature cell is not a number. *)
Definition faulty_csv : string :=
  "Lamppost ID,Air temperature (C)
LP2,--
".

Definition faulty_frame : DataFrame :=
  {| columns := ["Lamppost ID"; "Air temperature (C)"];
     frame_rows := [[CStr "LP2"; CStr "--"]] |}.

(** A feed none of whose columns is one the extractor looks for. *)
Definition foreign_csv : string :=
  "status,uptime
ok,17
".

Definition foreign_frame : DataFrame :=
  {| columns := ["status"; "uptime"];
     frame_rows := [[CStr "ok"; CInt 17]] |}.

Definition parsed : list (string * DataFrame) :=
  [(good_csv, good_frame); (header_only_csv, header_only_frame);
   (faulty_csv, faulty_frame); (foreign_csv, foreign_frame)].

(** An output file holding one earlier reading of [LP1] for the timestamp
    of [good_csv], with another temperature. *)
Definition prior_frame : StrFrame :=
  {| str_columns := ["lamppost_id"; "measurement_datetime";
                     "air_temperature_c"; "relative_humidity_pct";
                     "device_height_m"; "lp_latitude"; "lp_longitude";
                     "source_url"];
     str_rows := [[Some "LP1"; Some "2024-03-05T00:00:00"; Some "19.0";
                   Some "55.0"; Some "3.2"; Some "1.23"; Some "4.56";
                   Some "http://a/"]] |}.

(** A feed row carrying only the date columns, and the column map the
    extractor finds for its header. *)
Definition date_header : list string :=
  ["Data measurement Year"; "Data measurement Month";
   "Data measurement Day"].

Definition date_row (y mo d : cell) : Series := zip date_header [y; mo; d].

(** The same with an hour column. *)
Definition hour_header : list string :=
  date_header ++ ["Data measurement Hour"].

Definition hour_row (y mo d h : cell) : Series :=
  zip hour_header [y; mo; d; h].

(** A location whose latitude appears under two spellings. *)
Definition twice_latitude : Series :=
  [("LP_LATITUDE", dec 2230 (-2)); ("lp_latitude", dec 2231 (-2));
   ("LP_LONGITUDE", dec 11417 (-2))].

Definition here : cell := dec 2230 (-2).
Definition there : cell := dec 11417 (-2).

(** A second run over a location whose reading is already on file. *)
Definition rerun : World :=
  world [location "http://a/" (dec 123 (-2)) (dec 456 (-2))]
    [("http://a/", good_csv)] parsed (Readable prior_frame).

(** Two locations whose feeds have none of the expected columns. *)
Definition two_foreign : World :=
  world [location "http://c/" here there; location "http://d/" there here]
    [("http://c/", foreign_csv); ("http://d/", foreign_csv)] parsed NoFile.

(** A single location with no device URL, and a file already there. *)
Definition nothing_to_fetch : World :=
  world [no_url_location] [] parsed (Readable prior_frame).

(** A header-only feed, followed by a location with a good feed. *)
Definition header_only_then_good : World :=
  world [location "http://a/" here there; location "http://b/" here there]
    [("http://a/", header_only_csv); ("http://b/", good_csv)] parsed NoFile.

(** A feed with a non-numeric temperature, followed by a good one. *)
Definition faulty_then_good : World :=
  world [location "http://a/" here there; location "http://b/" here there]
    [("http://a/", faulty_csv); ("http://b/", good_csv)] parsed NoFile.

(** A location without URL, one whose request fails, one whose body does
    not parse, and one with a good feed. *)
Definition three_failures_then_good : World :=
  world [no_url_location; location "http://down/" here there;
         location "http://junk/" here there; location "http://a/" here there]
    [("http://junk/", ""); ("http://a/", good_csv)] parsed NoFile.

(** One location whose feed has none of the expected columns. *)
Definition one_foreign : World :=
  world [location "http://c/" here there]
    [("http://c/", foreign_csv)] parsed NoFile.

End Sample.

(** ** Vocabulary of the further facts *)

(** The candidate column [c] of a location holds a usable URL: the label
    is present, its cell is not missing, and the text of the cell is not
    blank; [url] is that text without surrounding whitespace. *)
Definition active_url (w : World) (row : Series) (c url : string) : Prop :=
  exists v,
    Series_lookup row c = Some v /\ isna v = false /\
    url = PyStr.strip (py_str w v) /\ url <> "".

(** A cell the extractor can turn into a numeric field: it is missing, or
    [float] accepts it. *)
Definition convertible (v : cell) : Prop :=
  isna v = true \/ exists f, py_float v = Ok f.

Definition numeric_fields : list string :=
  ["air_temperature"; "relative_humidity"; "device_height"].

(** The three numeric cells of a feed row are convertible. *)
Definition row_convertible (found : gmap string (option string))
    (r : Series) : Prop :=
  Forall (fun key => convertible (field_of r found key)) numeric_fields.

(** A program whose result does not depend on what was printed or done to
    the output path before it. *)
Definition oblivious {A} (m : M A) : Prop :=
  forall st st0, (m st).1 = (m st0).1.

(** The location at position [idx] fails in one of the three guarded
    ways: it has no device URL, its request fails, or the body of the
    response does not parse. *)
Definition guarded_failure (w : World) (idx : nat) (gdf_row : Series)
  : Prop :=
  match find_active_url_from_row w gdf_row with
  | None => True
  | Some url =>
      match session_get w idx url with
      | None => True
      | Some content => read_csv w content = None
      end
  end.

(** The row [r] was collected from the location [gdf_row] at position
    [idx] of the layer: [url] is the device URL of that location, the
    request for it succeeded, its body parsed, and [r] is one of the
    records the extractor returned for the parsed feed, with the
    coordinates of the location and [url] attached. *)
Definition collected_from (w : World) (idx : nat) (gdf_row : Series)
    (url : string) (r : OutRow cell) : Prop :=
  exists content device_df st extracted st' x,
    find_active_url_from_row w gdf_row = Some url /\
    session_get w idx url = Some content /\
    read_csv w content = Some device_df /\
    extract_fields_from_device_df device_df st = (Ok extracted, st') /\
    x ∈ extracted /\
    r = attach (find_gdb_latlon gdf_row).1 (find_gdb_latlon gdf_row).2 url x.

(** The row [r], collected while the loop was at position [idx] or
    later, comes from one of the locations [gdf] the loop had still to
    visit. *)
Definition collected_in (w : World) (idx : nat) (gdf : list Series)
    (r : OutRow cell) : Prop :=
  exists i gdf_row url,
    gdf !! i = Some gdf_row /\ collected_from w (idx + i) gdf_row url r.


(** A measurement of a new row: a float, or [None]. *)
Definition float_or_missing (v : cell) : Prop :=
  v = CNone \/ exists f, v = CFloat f.

(** An output file with two rows and neither key column. *)
Definition keyless_frame : StrFrame :=
  {| str_columns := ["air_temperature_c"; "source_url"];
     str_rows := [[Some "19.0"; Some "http://a/"];
                  [Some "20.5"; Some "http://b/"]] |}.

Definition keyless_file : World :=
  Sample.world
    [Sample.location "http://a/" (Sample.dec 123 (-2)) (Sample.dec 456 (-2))]
    [("http://a/", Sample.good_csv)] Sample.parsed (Readable keyless_frame).

(** What [main] prints between the loop and the report: the warning about
    an output file that could not be read. *)
Definition read_warning (w : World) : list line :=
  match out_csv w with
  | Unreadable => [CouldNotReadExisting]
  | _ => []
  end.

(** The accesses [main] makes to the output path before writing it. *)
Definition reads_before_write (w : World) : list fs_op :=
  match out_csv w with
  | NoFile => [PathExists]
  | _ => [PathExists; ReadCsv]
  end.


(** An output file holding a reading of [LP1] for the day before the one
    of [Sample.good_csv]. *)
Definition day_before_frame : StrFrame :=
  {| str_columns := str_columns Sample.prior_frame;
     str_rows := [[Some "LP1"; Some "2024-03-04T00:00:00"; Some "19.0";
                   Some "55.0"; Some "3.2"; Some "1.23"; Some "4.56";
                   Some "http://a/"]] |}.

(** A run that adds the reading of a new day to that file. *)
Definition next_day : World :=
  Sample.world
    [Sample.location "http://a/" (Sample.dec 123 (-2)) (Sample.dec 456 (-2))]
    [("http://a/", Sample.good_csv)] Sample.parsed (Readable day_before_frame).

(** The world [w] with an output path on which [to_csv] raises [e]. *)
Definition unwritable (w : World) (e : exn) : World :=
  {| layer := layer w;
     session_get := session_get w;
     read_csv := read_csv w;
     out_csv := out_csv w;
     float_repr := float_repr w;
     to_datetime := to_datetime w;
     to_csv_raises := Some e |}.

(** How a run ends once it has reached the write: normally when the file
    is written, with the exception of [to_csv] otherwise. *)
Definition write_result (w : World) : res unit :=
  match to_csv_raises w with
  | Some e => Raise e
  | None => Ok ()
  end.

(** What is printed after the write: the confirmation, when the file was
    written. *)
Definition write_confirmation (w : World) : list line :=
  match to_csv_raises w with
  | Some _ => []
  | None => [SavedTo]
  end.

(** A feed all of whose columns are numeric: an integer identifier and a
    float temperature. *)
Definition numeric_frame : DataFrame :=
  {| columns := ["Lamppost ID"; "Air temperature (C)"];
     frame_rows := [[CInt 123; Sample.dec 215 (-1)]] |}.

(** The row on file in [Sample.rerun], as the run writes it back. *)
Definition row_on_file : OutRow (option string) :=
  mk_row (Some "LP1") (Some "2024-03-05T00:00:00") (CStr "19.0")
    (CStr "55.0") (CStr "3.2") (CStr "1.23") (CStr "4.56")
    (Some "http://a/").

(** [to_int_safe] reads the text as the integer [n]. *)
Definition reads_back (text : string) (n : Z) : bool :=
  match to_int_safe (CStr text) with
  | Ok (Some m) => m =? n
  | _ => false
  end.

(** * Facts *)

(** ** Column Matcher *)

Section ColumnMatcherFacts.

Lemma prefix_iff (p s : string) :
  String.prefix p s = true <-> exists rest, s = p +:+ rest.
Proof.
  revert s. induction p as [|a p IH]; intros s; simpl.
  - split; [intros _; exists s; reflexivity | intros _; by destruct s].
  - destruct s as [|b s].
    + split; [done | intros [rest Hrest]; discriminate Hrest].
    + simpl. destruct (Ascii.ascii_dec a b) as [->|Hne].
      * rewrite IH. split.
        -- intros [rest ->]. by exists rest.
        -- intros [rest Hrest]. injection Hrest as ->. by exists rest.
      * split; [done |].
        intros [rest Hrest]. injection Hrest as ? _. by destruct Hne.
Qed.

Lemma contains_iff (needle hay : string) :
  PyStr.contains needle hay = true <-> PyStr.is_substring needle hay.
Proof.
  unfold PyStr.is_substring.
  induction hay as [|c hay IH]; cbn [PyStr.contains].
  - rewrite orb_false_r, prefix_iff. split.
    + intros [rest Hrest]. by exists EmptyString, rest.
    + intros [[|b before] [after Heq]];
        [exists after; exact Heq | discriminate Heq].
  - rewrite orb_true_iff, prefix_iff, IH. split.
    + intros [[rest Hrest] | (before & after & Heq)].
      * by exists EmptyString, rest.
      * exists (String c before), after. simpl. by rewrite Heq.
    + intros [[|b before] [after Heq]].
      * left. by exists after.
      * right. injection Heq as _ Heq. by exists before, after.
Qed.

Lemma all_substrings_in_iff (substrings : list string) (col : string) :
  all_substrings_in substrings col = true <-> qualifies substrings col.
Proof.
  unfold qualifies. induction substrings as [|s rest IH]; simpl.
  - split; [intros _; constructor | done].
  - rewrite Forall_cons, <- IH, <- contains_iff.
    destruct (PyStr.contains s col); simpl; intuition congruence.
Qed.

End ColumnMatcherFacts.

(** C2. [find_column_by_substring] returns the first column, in input
    order, whose name contains every required substring literally (case
    and all), and [None] when no column qualifies; a returned column is
    an element of the input and has every required substring as a literal
    substring. *)
Theorem find_column_by_substring_first_match
    (columns substrings : list string) :
  match find_column_by_substring columns substrings with
  | Some col =>
      col ∈ columns /\
      qualifies substrings col /\
      exists earlier later,
        columns = earlier ++ col :: later /\
        Forall (fun c => ~ qualifies substrings c) earlier
  | None => Forall (fun c => ~ qualifies substrings c) columns
  end.
Proof.
  induction columns as [|c rest IH]; simpl; [constructor |].
  destruct (all_substrings_in substrings c) eqn:Hc.
  - apply all_substrings_in_iff in Hc. split; [left | split; [done |]].
    by exists [], rest.
  - assert (~ qualifies substrings c) as Hnot.
    { rewrite <- all_substrings_in_iff. by rewrite Hc. }
    destruct (find_column_by_substring rest substrings) as [col|].
    + destruct IH as (Hin & Hq & earlier & later & -> & Hearlier).
      split; [by right | split; [done |]].
      exists (c :: earlier), later. split; [done | by constructor].
    + by constructor.
Qed.

(** ** Floats and the Datetime Assembler *)

Example float_examples :
  PyFloat.of_string "0.1" = Ok (S754_finite false 7205759403792794 (-56)) /\
  PyFloat.of_string " 7.0 " = Ok (S754_finite false 7881299347898368 (-50)) /\
  PyFloat.of_string "1_000.5" = Ok (S754_finite false 8800491068719104 (-43)) /\
  PyFloat.of_string "1e400" = Ok (S754_infinity false) /\
  PyFloat.of_string "-Infinity" = Ok (S754_infinity true) /\
  PyFloat.of_string "1e" = Raise ValueError /\
  PyFloat.of_string "--" = Raise ValueError /\
  PyFloat.of_Z 2024 = Ok (S754_finite false 8901646138474496 (-42)) /\
  to_int_safe (CStr "7.0") = Ok (Some 7) /\
  to_int_safe (CStr "-7.9") = Ok (Some (-7)) /\
  to_int_safe (CStr "seven") = Ok None /\
  to_int_safe (CFloat S754_nan) = Ok None.
Proof. vm_compute. repeat split. Qed.

Example strftime_example :
  strftime (mk_datetime 2024 3 5 0 0 0) "%Y-%m-%dT%H:%M:%S"
  = "2024-03-05T00:00:00".
Proof. vm_compute. reflexivity. Qed.

Section AssemblerFacts.

Implicit Types (row : Series) (cols_map : gmap string (option string)).

Lemma of_string_raises s e :
  PyFloat.of_string s = Raise e -> e = ValueError.
Proof.
  unfold PyFloat.of_string.
  destruct (PyFloat.drop_underscores _ _); [|congruence].
  destruct (PyFloat.sign _) as [neg body].
  destruct (PyFloat.decimal body) as [[m e10]|]; [congruence|].
  destruct (PyFloat.special neg body); congruence.
Qed.

Lemma of_Z_raises n e : PyFloat.of_Z n = Raise e -> e = OverflowError.
Proof.
  unfold PyFloat.of_Z. destruct (binary_normalize _ _ _ _ _); congruence.
Qed.

Lemma py_float_raises v e : py_float v = Raise e -> is_Exception e = true.
Proof.
  destruct v as [|b|n|f|s]; simpl; intros H.
  - by inversion H.
  - by apply of_Z_raises in H as ->.
  - by apply of_Z_raises in H as ->.
  - discriminate H.
  - by apply of_string_raises in H as ->.
Qed.

Lemma to_Z_raises f e : PyFloat.to_Z f = Raise e -> is_Exception e = true.
Proof. destruct f; simpl; intros H; by inversion H. Qed.

Lemma to_int_safe_total v : exists o, to_int_safe v = Ok o.
Proof.
  unfold to_int_safe. destruct (isna v); [by eexists|].
  destruct (py_float v) as [f|e] eqn:Hf; simpl.
  - destruct (PyFloat.to_Z f) as [n|e] eqn:Hn; simpl; [by eexists|].
    apply to_Z_raises in Hn as ->. by eexists.
  - apply py_float_raises in Hf as ->. by eexists.
Qed.

Lemma to_int_safe_reads v n : reads_as v n -> to_int_safe v = Ok (Some n).
Proof.
  intros (Hna & f & Hf & Hn). unfold to_int_safe.
  rewrite Hna, Hf. simpl. by rewrite Hn.
Qed.

Lemma to_int_safe_Some v n : to_int_safe v = Ok (Some n) -> reads_as v n.
Proof.
  unfold to_int_safe, reads_as. destruct (isna v); [discriminate|].
  destruct (py_float v) as [f|e] eqn:Hf; simpl.
  - destruct (PyFloat.to_Z f) as [m|e] eqn:Hm; simpl.
    + intros [= ->]. eauto.
    + apply to_Z_raises in Hm as ->. discriminate.
  - apply py_float_raises in Hf as ->. discriminate.
Qed.

Lemma to_int_safe_unusable v : unusable v -> to_int_safe v = Ok None.
Proof.
  intros Hv. destruct (to_int_safe_total v) as [[n|] Ho]; [|done].
  apply to_int_safe_Some in Ho. by destruct (Hv n).
Qed.

(** Every cell either reads as an integer or is unusable. *)
Lemma reads_as_or_unusable v : (exists n, reads_as v n) \/ unusable v.
Proof.
  destruct (to_int_safe_total v) as [[n|] Ho].
  - left. exists n. by apply to_int_safe_Some.
  - right. intros n Hn. apply to_int_safe_reads in Hn. congruence.
Qed.

Lemma resolved_dict_get cols_map key col :
  resolved cols_map key col ->
  dict_get cols_map key = Some col /\ truthy (Some col) = true.
Proof.
  intros [Hk Hne]. unfold dict_get. rewrite Hk. split; [done|]. simpl.
  destruct (String.eqb_spec col ""); [done|done].
Qed.

Lemma unresolved_dict_get cols_map key :
  unresolved cols_map key -> truthy (dict_get cols_map key) = false.
Proof.
  intros Hun. unfold dict_get.
  destruct (cols_map !! key) as [[col|]|] eqn:Hk; simpl; try done.
  destruct (String.eqb_spec col ""); [done|].
  destruct (Hun col). by split.
Qed.

Lemma date_part_total row cols_map key :
  exists o, date_part row cols_map key o.
Proof.
  destruct (cols_map !! key) as [[col|]|] eqn:Hk.
  - destruct (decide (col = "")) as [->|Hne].
    + exists None. constructor. intros c [Hc Hne]. congruence.
    + destruct (reads_as_or_unusable (Series_get row (Some col)))
        as [[n Hn]|Hun].
      * exists (Some n). by eapply date_part_value.
      * exists None. by eapply date_part_unusable.
  - exists None. constructor. intros c [Hc _]. congruence.
  - exists None. constructor. intros c [Hc _]. congruence.
Qed.

Lemma time_part_total row cols_map key :
  exists n, time_part row cols_map key n.
Proof.
  destruct (dict_get cols_map key) as [col|] eqn:Hk.
  - destruct (reads_as_or_unusable (Series_get row (Some col)))
      as [[n Hn]|Hun].
    + exists n. by eapply time_part_value.
    + exists 0. by eapply time_part_unusable.
  - exists 0. by constructor.
Qed.

Lemma date_part_run row cols_map key o :
  date_part row cols_map key o ->
  (truthy (dict_get cols_map key) = false /\ o = None) \/
  (truthy (dict_get cols_map key) = true /\
   to_int_safe (Series_get row (dict_get cols_map key)) = Ok o).
Proof.
  intros [Hun | col Hres Hv | col n Hres Hv].
  - left. split; [by apply unresolved_dict_get | done].
  - right. apply resolved_dict_get in Hres as [-> Ht].
    split; [done | by apply to_int_safe_unusable].
  - right. apply resolved_dict_get in Hres as [-> Ht].
    split; [done | by apply to_int_safe_reads].
Qed.

Lemma time_part_run row cols_map key n :
  time_part row cols_map key n ->
  or_0 <$> to_int_safe (Series_get row (dict_get cols_map key)) = Ok n.
Proof.
  intros [Hk | col Hk Hv | col m Hk Hv]; rewrite Hk.
  - done.
  - by rewrite to_int_safe_unusable.
  - rewrite (to_int_safe_reads _ m) by done. simpl.
    unfold fmap, res_fmap, or_0. by destruct (Z.eqb_spec m 0) as [->|].
Qed.

Lemma datetime_new_valid y mo d h mi s :
  valid_date y mo d -> valid_time h mi s ->
  datetime_new y mo d h mi s = Ok (mk_datetime y mo d h mi s).
Proof.
  intros (Hy & Hmo & Hd) (Hh & Hmi & Hs). unfold datetime_new.
  assert (days_in_month y mo <= 31) as Hdim.
  { unfold days_in_month. repeat case_match; lia. }
  assert (forallb fits_c_int [y; mo; d; h; mi; s] = true) as ->.
  { simpl. unfold fits_c_int. repeat (apply andb_true_intro; split); lia. }
  simpl.
  assert (forall a b, a <= b -> (a <=? b) = true) as Hle
    by (intros; by apply Z.leb_le).
  rewrite !Hle by lia. done.
Qed.

Lemma datetime_new_invalid y mo d h mi s :
  ~ (valid_date y mo d /\ valid_time h mi s) ->
  exists e, datetime_new y mo d h mi s = Raise e /\ is_Exception e = true.
Proof.
  intros Hnot. unfold datetime_new.
  destruct (forallb fits_c_int _); simpl; [|by eexists].
  match goal with |- context [if ?b then _ else _] => destruct b eqn:Hb end;
    [|by eexists].
  destruct Hnot. unfold valid_date, valid_time.
  repeat (apply andb_prop in Hb as [Hb ?]). lia.
Qed.

Lemma append_empty_r (s : string) : s +:+ "" = s.
Proof.
  induction s as [|c s IH]; [done|].
  change (String c (s +:+ "") = String c s). by rewrite IH.
Qed.

Lemma length_append (a b : string) :
  String.length (a +:+ b) = (String.length a + String.length b)%nat.
Proof.
  induction a as [|c a IH]; [done|].
  change (S (String.length (a +:+ b)) = S (String.length a + String.length b)).
  by rewrite IH.
Qed.

Lemma strftime_text y mo d h mi s :
  strftime (mk_datetime y mo d h mi s) "%Y-%m-%dT%H:%M:%S"
  = timestamp_text y mo d h mi s.
Proof.
  unfold timestamp_text. rewrite <- (append_empty_r (zero_pad 2 s)).
  reflexivity.
Qed.



(** Zero-filled numbers are runs of digits of the expected width. *)
Lemma zero_pad_2_digits n : 0 <= n <= 99 -> all_digits 2 (zero_pad 2 n) = true.
Proof.
  intros Hn.
  assert (forallb (fun n => all_digits 2 (zero_pad 2 n)) (seqZ 0 100) = true)
    as Hall by (vm_compute; reflexivity).
  rewrite forallb_forall in Hall. apply Hall.
  apply list_elem_of_In, elem_of_seqZ. lia.
Qed.






Lemma build_resolved row cols_map oy om od :
  truthy (dict_get cols_map "measurement_year") = true ->
  truthy (dict_get cols_map "measurement_month") = true ->
  truthy (dict_get cols_map "measurement_day") = true ->
  to_int_safe (Series_get row (dict_get cols_map "measurement_year"))
    = Ok oy ->
  to_int_safe (Series_get row (dict_get cols_map "measurement_month"))
    = Ok om ->
  to_int_safe (Series_get row (dict_get cols_map "measurement_day"))
    = Ok od ->
  build_measurement_datetime_from_row_using_columns row cols_map
  = match oy, om, od with
    | Some y, Some mo, Some d =>
        try_except
          (h ← or_0 <$> to_int_safe
                 (Series_get row (dict_get cols_map "measurement_hour"));
           mi ← or_0 <$> to_int_safe
                 (Series_get row (dict_get cols_map "measurement_minute"));
           s ← or_0 <$> to_int_safe
                 (Series_get row (dict_get cols_map "measurement_second"));
           dt ← datetime_new y mo d h mi s;
           Ok (Some (strftime dt "%Y-%m-%dT%H:%M:%S")))
          (fun _ => Ok None)
    | _, _, _ => Ok None
    end.
Proof.
  intros Hty Htm Htd Hy Hmo Hd.
  unfold build_measurement_datetime_from_row_using_columns.
  rewrite Hty, Htm, Htd, Hy, Hmo, Hd. simpl.
  by destruct oy, om, od.
Qed.

Lemma build_numeric_date row cols_map y mo d h mi s :
  date_part row cols_map "measurement_year" (Some y) ->
  date_part row cols_map "measurement_month" (Some mo) ->
  date_part row cols_map "measurement_day" (Some d) ->
  time_part row cols_map "measurement_hour" h ->
  time_part row cols_map "measurement_minute" mi ->
  time_part row cols_map "measurement_second" s ->
  build_measurement_datetime_from_row_using_columns row cols_map
  = try_except
      (dt ← datetime_new y mo d h mi s;
       Ok (Some (strftime dt "%Y-%m-%dT%H:%M:%S")))
      (fun _ => Ok None).
Proof.
  intros Hy Hmo Hd Hh Hmi Hs.
  apply date_part_run in Hy as [[_ [=]]|[Hty Hy]].
  apply date_part_run in Hmo as [[_ [=]]|[Htm Hmo]].
  apply date_part_run in Hd as [[_ [=]]|[Htd Hd]].
  apply time_part_run in Hh, Hmi, Hs.
  rewrite (build_resolved _ _ _ _ _ Hty Htm Htd Hy Hmo Hd).
  by rewrite Hh, Hmi, Hs.
Qed.

End AssemblerFacts.

(** ** Sample runs *)

Example good_feed_run :
  (main (Sample.world [Sample.location "http://a/" (Sample.dec 123 (-2))
                         (Sample.dec 456 (-2))]
           [("http://a/", Sample.good_csv)] Sample.parsed NoFile)
        no_effects).2
  = {| stdout := [Fetching 0 "http://a/"; PrintCell (CStr "LP1");
                  DedupReport 0 1; SavedTo];
       fs_ops := [PathExists;
                  ToCsv [mk_row (Some "LP1") (Some "2024-03-05T00:00:00")
                           (Sample.dec 215 (-1)) (Sample.dec 600 (-1))
                           (Sample.dec 32 (-1)) (Sample.dec 123 (-2))
                           (Sample.dec 456 (-2)) (Some "http://a/")]] |}.
Proof. vm_compute. reflexivity. Qed.

(** A missing URL, a failed request and an unparseable body each skip
    their location only. *)
Example guarded_failures_are_skipped :
  (main Sample.three_failures_then_good no_effects).2
  = {| stdout := [NoDeviceUrl 0;
                  Fetching 1 "http://down/"; RequestFailed 1;
                  Fetching 2 "http://junk/"; ParseFailed 2;
                  Fetching 3 "http://a/"; PrintCell (CStr "LP1");
                  DedupReport 0 1; SavedTo];
       fs_ops := [PathExists;
                  ToCsv [mk_row (Some "LP1") (Some "2024-03-05T00:00:00")
                           (Sample.dec 215 (-1)) (Sample.dec 600 (-1))
                           (Sample.dec 32 (-1)) Sample.here Sample.there
                           (Some "http://a/")]] |}.
Proof. vm_compute. reflexivity. Qed.

(** ** Datetime Assembler: the claims *)

Ltac compute_eq := vm_compute; reflexivity.

Ltac date_value col :=
  apply (date_part_value _ _ _ col);
  [ split; [compute_eq | discriminate]
  | split; [compute_eq | eexists; split; compute_eq] ].

Ltac time_absent := apply time_part_unresolved; compute_eq.




(** C4. When the year, month and day cells read as integers that do not
    form a valid calendar date, the assembler returns [None]; it does not
    raise. *)
Theorem invalid_calendar_date_is_absent
    (row : Series) (cols_map : gmap string (option string)) (y mo d : Z) :
  date_part row cols_map "measurement_year" (Some y) ->
  date_part row cols_map "measurement_month" (Some mo) ->
  date_part row cols_map "measurement_day" (Some d) ->
  ~ valid_date y mo d ->
  build_measurement_datetime_from_row_using_columns row cols_map = Ok None.
Proof.
  intros Hy Hmo Hd Hbad.
  destruct (time_part_total row cols_map "measurement_hour") as [h Hh].
  destruct (time_part_total row cols_map "measurement_minute") as [mi Hmi].
  destruct (time_part_total row cols_map "measurement_second") as [s Hs].
  rewrite (build_numeric_date _ _ _ _ _ _ _ _ Hy Hmo Hd Hh Hmi Hs).
  destruct (datetime_new_invalid y mo d h mi s) as (e & -> & He).
  { by intros [Hdate _]. }
  simpl. by rewrite He.
Qed.

Lemma invalid_calendar_date_is_absent_witness :
  build_measurement_datetime_from_row_using_columns
    (Sample.date_row (CStr "2024") (CStr "13.0") (CInt 5))
    (find_columns Sample.date_header)
  = Ok None.
Proof.
  apply (invalid_calendar_date_is_absent _ _ 2024 13 5).
  - date_value "Data measurement Year".
  - date_value "Data measurement Month".
  - date_value "Data measurement Day".
  - unfold valid_date. lia.
Defined.

(** ** Latitude and longitude of a location *)

Section LatLonFacts.

Context (row : Series).

Let step : cell * cell -> string -> cell * cell :=
  fun '(lat, lon) c =>
    let lat :=
      if decide (PyStr.lower c = "lp_latitude")
      then Series_get row (Some c) else lat in
    let lon :=
      if decide (PyStr.lower c = "lp_longitude")
      then Series_get row (Some c) else lon in
    (lat, lon).

Let pick (start : cell) (labels : list string) : cell :=
  from_option (fun c => Series_get row (Some c)) start (last labels).

Lemma pick_cons start c labels :
  pick start (c :: labels) = pick (Series_get row (Some c)) labels.
Proof. unfold pick. rewrite last_cons. by destruct (last labels). Qed.

Lemma latlon_loop (labels : list string) (lat lon : cell) :
  foldl step (lat, lon) labels
  = (pick lat (filter (fun c => PyStr.lower c = "lp_latitude") labels),
     pick lon (filter (fun c => PyStr.lower c = "lp_longitude") labels)).
Proof.
  revert lat lon. induction labels as [|c labels IH]; intros lat lon; [done|].
  cbn [foldl]. unfold step at 2. rewrite IH. rewrite !filter_cons.
  f_equal; case_decide; by rewrite ?pick_cons.
Qed.

End LatLonFacts.

(** C8, as amended. Each field name is compared, lower-cased, with
    [lp_latitude] and [lp_longitude]; when several names match, the last
    one in index order provides the value; the value is [None] when no
    name matches. *)
Theorem find_gdb_latlon_last_match (gdf_row : Series) :
  find_gdb_latlon gdf_row
  = (cell_at_last gdf_row (labels_matching "lp_latitude" gdf_row),
     cell_at_last gdf_row (labels_matching "lp_longitude" gdf_row)).
Proof. unfold find_gdb_latlon. by rewrite latlon_loop. Qed.

(** C8 as first stated fails: with the latitude under [LP_LATITUDE] and
    then under [lp_latitude], the first matching field holds 22.30 and the
    function returns 22.31. *)
Lemma find_gdb_latlon_not_first_match :
  head (labels_matching "lp_latitude" Sample.twice_latitude)
    = Some "LP_LATITUDE" /\
  Series_get Sample.twice_latitude (Some "LP_LATITUDE")
    = Sample.dec 2230 (-2) /\
  (find_gdb_latlon Sample.twice_latitude).1 = Sample.dec 2231 (-2) /\
  Sample.dec 2231 (-2) <> Sample.dec 2230 (-2).
Proof. repeat split; try compute_eq. vm_compute. discriminate. Qed.

(** ** Deduplication *)

Section DedupFacts.

Implicit Types (data : list (OutRow (option string)))
  (seen : gset (option string * option string))
  (k : option string * option string).

Lemma drop_duplicates_elem seen data r :
  r ∈ drop_duplicates seen data -> r ∈ data /\ dedup_key r ∉ seen.
Proof.
  revert seen. induction data as [|x data IH]; intros seen; simpl.
  - by intros ?%elem_of_nil.
  - case_decide as Hx.
    + intros [? ?]%IH. split; [by right | done].
    + intros [->|[? Hr]%IH]%elem_of_cons; [split; [by left | done]|].
      split; [by right|]. intros Hin. by apply Hr, elem_of_union_r.
Qed.

Lemma drop_duplicates_NoDup seen data :
  NoDup (dedup_key <$> drop_duplicates seen data).
Proof.
  revert seen. induction data as [|x data IH]; intros seen; simpl.
  - constructor.
  - case_decide as Hx; [apply IH|].
    rewrite fmap_cons. constructor; [|apply IH].
    intros (r & Hkey & Hr)%list_elem_of_fmap.
    apply drop_duplicates_elem in Hr as [_ Hr].
    apply Hr, elem_of_union_l, elem_of_singleton. congruence.
Qed.

Lemma drop_duplicates_sublist seen data :
  sublist (drop_duplicates seen data) data.
Proof.
  revert seen. induction data as [|x data IH]; intros seen; simpl.
  - constructor.
  - case_decide; [by apply sublist_cons | by apply sublist_skip].
Qed.

Lemma first_with_key_cons k x data :
  first_with_key k (x :: data)
  = if decide (dedup_key x = k) then Some x else first_with_key k data.
Proof.
  unfold first_with_key. cbn [list_find]. case_decide; [done|].
  by destruct (list_find _ data) as [[i r]|].
Qed.

Lemma drop_duplicates_first seen data k :
  k ∉ seen ->
  first_with_key k (drop_duplicates seen data) = first_with_key k data.
Proof.
  revert seen. induction data as [|x data IH]; intros seen Hk; simpl; [done|].
  rewrite (first_with_key_cons k x data). case_decide as Hx.
  - case_decide as Hkx; [by subst k|]. by apply IH.
  - rewrite first_with_key_cons. case_decide as Hkx; [done|].
    apply IH. intros [Hin%elem_of_singleton|Hin]%elem_of_union; congruence.
Qed.

Lemma first_with_key_app k data1 data2 p :
  p ∈ data1 -> dedup_key p = k ->
  first_with_key k (data1 ++ data2) = first_with_key k data1.
Proof.
  intros Hp Hk. induction data1 as [|x data1 IH]; [by apply elem_of_nil in Hp|].
  rewrite <- app_comm_cons, !first_with_key_cons. case_decide as Hx; [done|].
  apply IH. apply elem_of_cons in Hp as [->|Hp]; [by destruct Hx | done].
Qed.

Lemma unique_key_filter {A B} `{EqDecision B} (f : A -> B) (l : list A) (b : B) :
  NoDup (f <$> l) -> (length (filter (fun x => f x = b) l) <= 1)%nat.
Proof.
  induction l as [|x l IH]; [simpl; lia|].
  rewrite fmap_cons, NoDup_cons. intros [Hx Hl]. rewrite filter_cons.
  case_decide as Hb; [|by apply IH]. simpl.
  destruct (filter (fun x => f x = b) l) as [|y rest] eqn:Hrest; [simpl; lia|].
  assert (y ∈ filter (fun x => f x = b) l) as [Hfy Hy]%list_elem_of_filter
    by (rewrite Hrest; left).
  destruct Hx. apply list_elem_of_fmap. exists y. split; [congruence | done].
Qed.

End DedupFacts.

(** ** What a run does to the output path *)

Section RunFacts.

Lemma quiet_ret {A} (a : A) : quiet (mret a).
Proof. done. Qed.

Lemma quiet_lift {A} (r : res A) : quiet (lift r).
Proof. done. Qed.

Lemma quiet_print l : quiet (print l).
Proof. done. Qed.

Lemma quiet_bind {A B} (m : M A) (k : A -> M B) :
  quiet m -> (forall a, quiet (k a)) -> quiet (m ≫= k).
Proof.
  intros Hm Hk st. unfold mbind, M_bind. specialize (Hm st).
  destruct (m st) as [[a|e] st']; simpl in *; [|done].
  by rewrite Hk.
Qed.

Lemma quiet_extract device_df : quiet (extract_fields_from_device_df device_df).
Proof.
  unfold extract_fields_from_device_df.
  repeat (apply quiet_bind; [|intros ?]);
    auto using quiet_lift, quiet_print.
Qed.

Lemma quiet_collect w idx gdf collected : quiet (collect w idx gdf collected).
Proof.
  revert idx collected.
  induction gdf as [|gdf_row rest IH]; intros idx collected; cbn [collect].
  - apply quiet_ret.
  - destruct (negb _).
    { apply quiet_bind; [apply quiet_print | intros _; apply IH]. }
    apply quiet_bind; [apply quiet_print | intros _].
    destruct (session_get w idx _) as [content|];
      [|apply quiet_bind; [apply quiet_print | intros _; apply IH]].
    destruct (read_csv w content) as [device_df|];
      [|apply quiet_bind; [apply quiet_print | intros _; apply IH]].
    apply quiet_bind; [apply quiet_extract | intros extracted].
    case_bool_decide.
    + apply quiet_bind; [apply quiet_print | intros _; apply IH].
    + destruct (find_gdb_latlon gdf_row). apply IH.
Qed.

(** A dataset written by a run is the reconciliation of the prior rows
    with the new rows. *)
Lemma main_writes_reconciled w final :
  ToCsv final ∈ fs_ops (main w no_effects).2 ->
  final = reconcile w (prior_rows w) (new_rows w).
Proof.
  unfold main, new_rows, prior_rows, reconcile.
  destruct (layer w) as [gdf|]; [|by intros ?%elem_of_nil].
  unfold mbind at 1, M_bind at 1.
  pose proof (quiet_collect w 0 gdf [] no_effects) as Hquiet.
  destruct (collect w 0 gdf [] no_effects) as [[collected|e] st].
  2: { simpl in *. rewrite Hquiet. by intros ?%elem_of_nil. }
  simpl in Hquiet. case_bool_decide.
  { simpl. rewrite Hquiet. by intros ?%elem_of_nil. }
  destruct (out_csv w) as [| |existing], (to_csv_raises w) as [e|];
    simpl; rewrite Hquiet; simpl;
    rewrite ?elem_of_cons, elem_of_nil; intros Hin;
    repeat (destruct Hin as [Hin|Hin]; [try discriminate Hin|]);
    try done; congruence.
Qed.

End RunFacts.

(** ** Reconciliation: the claims *)

(** C1. Every dataset a run writes has at most one row per pair
    ([measurement_datetime], [lamppost_id]). It is what remains of the
    prior rows followed by the new rows when, for each pair, only the first
    row carrying it is kept; so a pair present in the prior data is
    represented by its first prior row. *)
Theorem final_dataset_unique_first_seen_wins
    (w : World) (final : list (OutRow (option string))) :
  ToCsv final ∈ fs_ops (main w no_effects).2 ->
  NoDup (dedup_key <$> final) /\
  sublist final (coerce_id w <$> (prior_rows w ++ new_rows w)) /\
  (forall k,
     first_with_key k final
     = first_with_key k (coerce_id w <$> (prior_rows w ++ new_rows w))) /\
  (forall p, p ∈ prior_rows w ->
     first_with_key (dedup_key (coerce_id w p)) final
     = first_with_key (dedup_key (coerce_id w p))
         (coerce_id w <$> prior_rows w)).
Proof.
  intros ->%main_writes_reconciled. unfold reconcile.
  split; [apply drop_duplicates_NoDup|].
  split; [apply drop_duplicates_sublist|].
  split.
  - intros k. apply drop_duplicates_first, not_elem_of_empty.
  - intros p Hp. rewrite drop_duplicates_first by apply not_elem_of_empty.
    rewrite fmap_app.
    apply (first_with_key_app _ _ _ (coerce_id w p)); [|done].
    by apply list_elem_of_fmap_2.
Qed.

(** On a second run over the same reading, the row on file survives and
    the new one is dropped. *)
Lemma final_dataset_unique_first_seen_wins_witness :
  let final :=
    [mk_row (Some "LP1") (Some "2024-03-05T00:00:00") (CStr "19.0")
       (CStr "55.0") (CStr "3.2") (CStr "1.23") (CStr "4.56")
       (Some "http://a/")] in
  ToCsv final ∈ fs_ops (main Sample.rerun no_effects).2 /\
  length (prior_rows Sample.rerun ++ new_rows Sample.rerun) = 2%nat /\
  NoDup (dedup_key <$> final) /\
  (forall p, p ∈ prior_rows Sample.rerun ->
     first_with_key (dedup_key (coerce_id Sample.rerun p)) final
     = first_with_key (dedup_key (coerce_id Sample.rerun p))
         (coerce_id Sample.rerun <$> prior_rows Sample.rerun)).
Proof.
  intros final.
  assert (ToCsv final ∈ fs_ops (main Sample.rerun no_effects).2) as Hrun.
  { vm_compute. do 2 apply list_elem_of_further. apply list_elem_of_here. }
  split; [exact Hrun|]. split; [compute_eq|].
  split.
  - exact (proj1 (final_dataset_unique_first_seen_wins _ _ Hrun)).
  - exact (proj2 (proj2 (proj2
             (final_dataset_unique_first_seen_wins _ _ Hrun)))).
Defined.

(** C9. In every dataset a run writes, at most one row has both its
    [measurement_datetime] and its [lamppost_id] missing, whatever the
    other columns of such rows hold. *)
Theorem absent_keys_at_most_one_row
    (w : World) (final : list (OutRow (option string))) :
  ToCsv final ∈ fs_ops (main w no_effects).2 ->
  (length (filter (fun r => dedup_key r = (None, None)) final) <= 1)%nat.
Proof.
  intros ->%main_writes_reconciled.
  apply unique_key_filter, drop_duplicates_NoDup.
Qed.

(** Two locations each contribute a row without timestamp and identifier,
    with different coordinates and URLs; the first is the one written. *)
Lemma absent_keys_at_most_one_row_witness :
  let final :=
    [mk_row None None CNone CNone CNone Sample.here Sample.there
       (Some "http://c/")] in
  dedup_key <$> (coerce_id Sample.two_foreign <$> new_rows Sample.two_foreign)
    = [(None, None); (None, None)] /\
  ToCsv final ∈ fs_ops (main Sample.two_foreign no_effects).2 /\
  (length (filter (fun r => dedup_key r = (None, None)) final) <= 1)%nat.
Proof.
  intros final.
  assert (ToCsv final ∈ fs_ops (main Sample.two_foreign no_effects).2)
    as Hrun.
  { vm_compute. apply list_elem_of_further, list_elem_of_here. }
  split; [compute_eq|]. split; [exact Hrun|].
  exact (absent_keys_at_most_one_row _ _ Hrun).
Defined.

(** C10. When the loop over the locations ends with nothing collected, the
    run prints its notice and returns normally, and the output path has
    been neither tested, read nor written. *)
Theorem nothing_collected_leaves_output_untouched
    (w : World) (gdf : list Series) (st : effects) :
  layer w = Some gdf ->
  collect w 0 gdf [] no_effects = (Ok [], st) ->
  main w no_effects
  = (Ok (), {| stdout := stdout st ++ [NoRowsCollected]; fs_ops := [] |}).
Proof.
  intros Hlayer Hcollect. unfold main. rewrite Hlayer.
  unfold mbind at 1, M_bind at 1. rewrite Hcollect.
  pose proof (quiet_collect w 0 gdf [] no_effects) as Hquiet.
  rewrite Hcollect in Hquiet. simpl in Hquiet.
  rewrite bool_decide_eq_true_2 by done. unfold print. by rewrite Hquiet.
Qed.

Lemma nothing_collected_leaves_output_untouched_witness :
  main Sample.nothing_to_fetch no_effects
  = (Ok (), {| stdout := [NoDeviceUrl 0; NoRowsCollected]; fs_ops := [] |}).
Proof.
  apply (nothing_collected_leaves_output_untouched Sample.nothing_to_fetch
           [Sample.no_url_location]
           {| stdout := [NoDeviceUrl 0]; fs_ops := [] |}).
  - reflexivity.
  - compute_eq.
Defined.

(** ** Runs on which the program departs from its specification *)

(** C5. A feed with a header and no data row makes [main] end with an
    uncaught [IndexError]; the location after it is never fetched and no
    dataset is written. *)
Theorem header_only_feed_aborts_run :
  main Sample.header_only_then_good no_effects
  = (Raise IndexError,
     {| stdout := [Fetching 0 "http://a/"]; fs_ops := [] |}).
Proof. compute_eq. Qed.

(** C6. A temperature cell that is not a number makes the extractor, and
    with it [main], end with an uncaught [ValueError]. *)
Theorem non_numeric_temperature_raises :
  (extract_fields_from_device_df Sample.faulty_frame no_effects).1
    = Raise ValueError /\
  main Sample.faulty_then_good no_effects
  = (Raise ValueError,
     {| stdout := [Fetching 0 "http://a/"; PrintCell (CStr "LP2")];
        fs_ops := [] |}).
Proof. split; compute_eq. Qed.

(** C7. A feed none of whose columns matches is not skipped: its row, all
    of whose extracted fields are missing, is written to the dataset. *)
Theorem feed_without_matching_columns_is_kept :
  dict_get (find_columns (columns Sample.foreign_frame))
    <$> ["lamppost_id"; "air_temperature"; "relative_humidity";
         "device_height"; "measurement_year"; "measurement_month";
         "measurement_day"; "measurement_hour"; "measurement_minute";
         "measurement_second"]
    = replicate 10 None /\
  main Sample.one_foreign no_effects
  = (Ok (),
     {| stdout := [Fetching 0 "http://c/"; PrintCell (CStr "ok");
                   DedupReport 0 1; SavedTo];
        fs_ops := [PathExists;
                   ToCsv [mk_row None None CNone CNone CNone Sample.here
                            Sample.there (Some "http://c/")]] |}).
Proof. split; compute_eq. Qed.

(** * Further facts *)

(** ** Selection of the device URL *)

Section StripFacts.

Lemma append_assoc (a b c : string) : (a +:+ b) +:+ c = a +:+ (b +:+ c).
Proof.
  induction a as [|x a IH]; [done|].
  change (String x ((a +:+ b) +:+ c) = String x (a +:+ (b +:+ c))).
  by rewrite IH.
Qed.

Lemma after_prefix_Some (p s rest : string) :
  PyStr.after_prefix p s = Some rest <-> s = p +:+ rest.
Proof.
  revert s. induction p as [|a p IH]; intros s.
  - simpl. split; [by intros [= ->] | by intros ->].
  - destruct s as [|b s]; simpl.
    + split; [done | intros Heq; discriminate Heq].
    + destruct (Ascii.eqb_spec a b) as [->|Hne].
      * rewrite IH. split.
        -- by intros ->.
        -- intros Heq. by injection Heq as ->.
      * split; [done|]. intros Heq. injection Heq as ? _. by destruct Hne.
Qed.

Lemma after_any_Some (prefixes : list string) (s rest : string) :
  PyStr.after_any prefixes s = Some rest ->
  exists p, p ∈ prefixes /\ s = p +:+ rest.
Proof.
  induction prefixes as [|p others IH]; simpl; [done|].
  destruct (PyStr.after_prefix p s) as [r|] eqn:Hp.
  - intros [= ->]. apply after_prefix_Some in Hp. exists p. by split; [left|].
  - intros (q & Hq & Hs)%IH. exists q. by split; [right|].
Qed.

Lemma after_any_None (prefixes : list string) (s : string) :
  PyStr.after_any prefixes s = None ->
  forall p rest, p ∈ prefixes -> s <> p +:+ rest.
Proof.
  induction prefixes as [|q others IH]; simpl.
  - intros _ p rest Hp. by apply elem_of_nil in Hp.
  - destruct (PyStr.after_prefix q s) as [r|] eqn:Hq; [done|].
    intros Hnone p rest [->|Hp]%elem_of_cons Hs.
    + apply after_prefix_Some in Hs. congruence.
    + by apply (IH Hnone p rest).
Qed.

(** A whitespace character takes at least one byte. *)
Lemma after_space_shorter (s rest : string) :
  PyStr.after_space s = Some rest ->
  (String.length rest < String.length s)%nat.
Proof.
  intros (p & Hp & ->)%after_any_Some. rewrite length_append.
  assert (Forall (fun p => p <> "") PyStr.whitespace_encodings) as Hall.
  { apply (bool_decide_unpack _). vm_compute. exact I. }
  rewrite Forall_forall in Hall. specialize (Hall p Hp).
  destruct p; [done | simpl; lia].
Qed.

Lemma lstrip_go_head (fuel : nat) (s : string) :
  (String.length s <= fuel)%nat ->
  PyStr.after_space (PyStr.lstrip_go fuel s) = None.
Proof.
  revert s. induction fuel as [|fuel IH]; intros s Hlen; simpl.
  - destruct s; [by vm_compute | simpl in Hlen; lia].
  - destruct (PyStr.after_space s) as [rest|] eqn:Hs; [|done].
    apply IH. apply after_space_shorter in Hs. lia.
Qed.

(** What [lstrip] returns does not start with whitespace. *)
Lemma lstrip_head (s : string) : PyStr.after_space (PyStr.lstrip s) = None.
Proof. by apply lstrip_go_head. Qed.

Lemma lstrip_fixed (s : string) :
  PyStr.after_space s = None -> PyStr.lstrip s = s.
Proof.
  intros Hs. unfold PyStr.lstrip.
  destruct (String.length s); simpl; [done | by rewrite Hs].
Qed.

Lemma rstrip_cons (c : ascii) (s : string) :
  PyStr.rstrip (String c s)
  = if String.eqb (PyStr.lstrip (String c (PyStr.rstrip s))) ""
    then "" else String c (PyStr.rstrip s).
Proof. done. Qed.

Lemma rstrip_idempotent (s : string) :
  PyStr.rstrip (PyStr.rstrip s) = PyStr.rstrip s.
Proof.
  induction s as [|c s IH]; [done|]. rewrite rstrip_cons.
  destruct (String.eqb (PyStr.lstrip (String c (PyStr.rstrip s))) "")
    eqn:Hblank; [done|].
  by rewrite rstrip_cons, IH, Hblank.
Qed.

(** [rstrip] only cuts a suffix off. *)
Lemma rstrip_prefix (s : string) : exists tail, s = PyStr.rstrip s +:+ tail.
Proof.
  induction s as [|c s [tail IH]]; [by exists ""|]. rewrite rstrip_cons.
  destruct (String.eqb _ _).
  - by exists (String c s).
  - exists tail. change (String c s = String c (PyStr.rstrip s +:+ tail)).
    by rewrite <- IH.
Qed.

Lemma rstrip_head (s : string) :
  PyStr.after_space s = None -> PyStr.after_space (PyStr.rstrip s) = None.
Proof.
  intros Hs. destruct (rstrip_prefix s) as [tail Htail].
  destruct (PyStr.after_space (PyStr.rstrip s)) as [rest|] eqn:Hr; [|done].
  apply after_any_Some in Hr as (p & Hp & Hr).
  destruct (after_any_None _ _ Hs p (rest +:+ tail) Hp).
  by rewrite Htail at 1; rewrite Hr, append_assoc.
Qed.

Lemma strip_idempotent (s : string) :
  PyStr.strip (PyStr.strip s) = PyStr.strip s.
Proof.
  unfold PyStr.strip.
  rewrite (lstrip_fixed (PyStr.rstrip (PyStr.lstrip s)))
    by apply rstrip_head, lstrip_head.
  apply rstrip_idempotent.
Qed.

End StripFacts.

Lemma first_active_url_spec (w : World) (row : Series)
    (candidates : list string) :
  match first_active_url w row candidates with
  | Some url =>
      exists earlier c later,
        candidates = earlier ++ c :: later /\
        active_url w row c url /\
        Forall (fun c' => forall u, ~ active_url w row c' u) earlier
  | None => Forall (fun c => forall u, ~ active_url w row c u) candidates
  end.
Proof.
  induction candidates as [|c rest IH]; simpl; [constructor|].
  assert ((forall u, ~ active_url w row c u) ->
            (match first_active_url w row rest with
             | Some url =>
                 exists earlier c' later,
                   c :: rest = earlier ++ c' :: later /\
                   active_url w row c' url /\
                   Forall (fun c' => forall u, ~ active_url w row c' u) earlier
             | None =>
                 Forall (fun c => forall u, ~ active_url w row c u) (c :: rest)
             end)) as Hskip.
  { intros Hc. destruct (first_active_url w row rest) as [url|].
    - destruct IH as (earlier & c' & later & -> & Hact & Hearlier).
      exists (c :: earlier), c', later. split; [done|]. split; [done|].
      by constructor.
    - by constructor. }
  destruct (Series_lookup row c) as [v|] eqn:Hv.
  - destruct (isna v) eqn:Hna; simpl.
    + apply Hskip. intros u (v' & Hv' & Hna' & _). congruence.
    + destruct (String.eqb_spec (PyStr.strip (py_str w v)) "") as [He|Hne];
        simpl.
      * apply Hskip. intros u (v' & Hv' & _ & -> & Hu). congruence.
      * exists [], c, rest. split; [done|]. split; [|constructor].
        by exists v.
  - apply Hskip. intros u (v' & Hv' & _). congruence.
Qed.

(** X1. The device URL of a location is taken from the first of
    [DEVICE_04_DATA_URL], [DEVICE_02_DATA_URL], [DEVICE_01_DATA_URL] (in
    that order) whose cell is present, not missing and not blank; when no
    candidate is usable there is no URL. *)
Theorem find_active_url_first_usable (w : World) (row : Series) :
  match find_active_url_from_row w row with
  | Some url =>
      exists earlier c later,
        DEVICE_URL_COLUMNS = earlier ++ c :: later /\
        active_url w row c url /\
        Forall (fun c' => forall u, ~ active_url w row c' u) earlier
  | None =>
      Forall (fun c => forall u, ~ active_url w row c u) DEVICE_URL_COLUMNS
  end.
Proof. apply first_active_url_spec. Qed.

(** X2. A URL returned for a location is never empty and carries no
    surrounding whitespace, so the test [if not url] in [main] only fires
    when no URL was found. *)
Theorem find_active_url_stripped (w : World) (row : Series) (url : string) :
  find_active_url_from_row w row = Some url ->
  url <> "" /\ PyStr.strip url = url /\ truthy (Some url) = true.
Proof.
  intros Hurl. pose proof (first_active_url_spec w row DEVICE_URL_COLUMNS) as H.
  unfold find_active_url_from_row in Hurl. rewrite Hurl in H.
  destruct H as (_ & c & _ & _ & (v & _ & _ & -> & Hne) & _).
  split; [done|]. split; [apply strip_idempotent|].
  simpl. by destruct (String.eqb_spec (PyStr.strip (py_str w v)) "").
Qed.

Lemma find_active_url_stripped_witness :
  find_active_url_from_row
    (Sample.world [] [] [] NoFile)
    [("DEVICE_04_DATA_URL", CStr "   ");
     ("DEVICE_02_DATA_URL", CStr " http://b/ ");
     ("DEVICE_01_DATA_URL", CStr "http://c/")]
  = Some "http://b/" /\
  "http://b/" <> "" /\ PyStr.strip "http://b/" = "http://b/" /\
  truthy (Some "http://b/") = true.
Proof.
  assert (find_active_url_from_row
            (Sample.world [] [] [] NoFile)
            [("DEVICE_04_DATA_URL", CStr "   ");
             ("DEVICE_02_DATA_URL", CStr " http://b/ ");
             ("DEVICE_01_DATA_URL", CStr "http://c/")]
          = Some "http://b/") as Hurl by (vm_compute; reflexivity).
  split; [exact Hurl|]. exact (find_active_url_stripped _ _ _ Hurl).
Defined.

(** A candidate holding only a no-break space is blank, and the next
    candidate provides the URL. *)
Example blank_candidate_is_skipped :
  PyStr.strip (PyStr.utf8 160) = "" /\
  find_active_url_from_row
    (Sample.world [] [] [] NoFile)
    [("DEVICE_04_DATA_URL", CStr (PyStr.utf8 160));
     ("DEVICE_02_DATA_URL", CStr " http://b/ ")]
  = Some "http://b/".
Proof. split; vm_compute; reflexivity. Qed.

(** ** Reading integers and assembling timestamps *)

(** [float] reads whitespace and decimal digits outside ASCII (a no-break
    space, the Arabic-Indic digit three), and rejects the separator FS,
    which [str.strip] removes. *)
Example float_outside_ascii :
  PyFloat.of_string (PyStr.utf8 160 +:+ "21.5")
    = Ok (PyFloat.of_decimal false 215 (-1)) /\
  PyFloat.of_string (PyStr.utf8 1635) = Ok (PyFloat.of_decimal false 3 0) /\
  PyFloat.of_string (PyStr.utf8 28 +:+ "21.5") = Raise ValueError /\
  PyStr.strip (PyStr.utf8 28 +:+ "21.5") = "21.5".
Proof. vm_compute. repeat split. Qed.


Section IntegerCells.

Lemma digits2_pos_size (p : positive) : digits2_pos p = Pos.size p.
Proof. induction p as [p IH|p IH|]; simpl; by rewrite ?IH. Qed.

Lemma digits2_pos_bound (p : positive) :
  Z.pos p < 2 ^ 53 -> Z.pos (digits2_pos p) <= 53.
Proof.
  intros Hp. rewrite digits2_pos_size.
  pose proof (Pos.size_le p) as Hle.
  destruct (decide (Z.pos (Pos.size p) <= 53)) as [|Hbig]; [done|].
  exfalso.
  assert (2 ^ 54 <= 2 ^ Z.pos (Pos.size p)) by (apply Z.pow_le_mono_r; lia).
  assert (Z.pos (2 ^ Pos.size p) <= Z.pos p~0) as H2 by exact Hle.
  rewrite Pos2Z.inj_pow in H2. change (Z.pos p~0) with (2 * Z.pos p) in H2.
  change (Z.pos 2) with 2 in H2. lia.
Qed.

Lemma iter_xO_value (p d : positive) :
  Z.pos (Pos.iter xO p d) = Z.pos p * 2 ^ Z.pos d.
Proof.
  induction d as [|d IH] using Pos.peano_ind.
  - simpl. lia.
  - rewrite Pos.iter_succ, Pos2Z.inj_succ, Z.pow_succ_r by lia.
    change (Z.pos (Pos.iter xO p d)~0) with (2 * Z.pos (Pos.iter xO p d)).
    rewrite IH. lia.
Qed.

Lemma iter_xO_digits (p d : positive) :
  Z.pos (digits2_pos (Pos.iter xO p d)) = Z.pos (digits2_pos p) + Z.pos d.
Proof.
  induction d as [|d IH] using Pos.peano_ind.
  - simpl. lia.
  - rewrite Pos.iter_succ. cbn [digits2_pos]. lia.
Qed.

Lemma binary_round_aux_exact (s : bool) (m : positive) (e : Z) :
  Z.pos (digits2_pos m) = 53 -> -1074 <= e <= 971 ->
  binary_round_aux PyFloat.prec PyFloat.emax s (Z.pos m) e loc_Exact
  = S754_finite s m e.
Proof.
  intros Hm He.
  assert (shr_fexp PyFloat.prec PyFloat.emax (Z.pos m) e loc_Exact
          = ({| shr_m := Z.pos m; shr_r := false; shr_s := false |}, e))
    as Hshr.
  { unfold shr_fexp, fexp, emin, PyFloat.prec, PyFloat.emax. cbn [Zdigits2].
    rewrite Hm.
    replace (Z.max (53 + e - 53) (3 - 1024 - 53) - e) with 0 by lia.
    done. }
  unfold binary_round_aux. rewrite Hshr. cbn [shr_m loc_of_shr_record
    round_nearest_even]. rewrite Hshr. cbn [shr_m].
  unfold PyFloat.prec, PyFloat.emax.
  by rewrite (proj2 (Z.leb_le e (1024 - 53))) by lia.
Qed.

Lemma binary_round_exact (s : bool) (p : positive) :
  Z.pos p < 2 ^ 53 ->
  exists m e,
    binary_round PyFloat.prec PyFloat.emax s p 0 = S754_finite s m e /\
    -52 <= e <= 0 /\ Z.pos m = Z.pos p * 2 ^ (- e).
Proof.
  intros Hp. pose proof (digits2_pos_bound p Hp) as Hdig.
  unfold binary_round, shl_align, fexp, emin, PyFloat.prec, PyFloat.emax.
  replace (Z.max (Z.pos (digits2_pos p) + 0 - 53) (3 - 1024 - 53))
    with (Z.pos (digits2_pos p) - 53) by lia.
  destruct (Z.pos (digits2_pos p) - 53 - 0) as [|d|d] eqn:Hd; [|lia|].
  - exists p, 0. split; [|split; [lia | simpl; lia]].
    apply binary_round_aux_exact; lia.
  - exists (Pos.iter xO p d), (Z.pos (digits2_pos p) - 53).
    split; [|split; [lia|]].
    + apply binary_round_aux_exact; [|lia]. rewrite iter_xO_digits. lia.
    + rewrite iter_xO_value. f_equal. f_equal. lia.
Qed.

Lemma to_Z_of_exact (s : bool) (p m : positive) (e : Z) :
  -52 <= e <= 0 -> Z.pos m = Z.pos p * 2 ^ (- e) ->
  PyFloat.to_Z (S754_finite s m e) = Ok (cond_Zopp s (Z.pos p)).
Proof.
  intros He Hm. simpl. rewrite Hm.
  replace e with (- (- e)) at 2 by lia.
  rewrite Z.shiftl_opp_r, Z.shiftr_div_pow2 by lia.
  rewrite Z.div_mul; [done|]. apply Z.pow_nonzero; lia.
Qed.


Lemma of_Z_exact (n : Z) :
  - 2 ^ 53 < n < 2 ^ 53 ->
  exists f, PyFloat.of_Z n = Ok f /\ PyFloat.to_Z f = Ok n.
Proof.
  intros Hn. unfold PyFloat.of_Z, binary_normalize.
  destruct n as [|p|p].
  - by eexists.
  - destruct (binary_round_exact false p) as (m & e & -> & He & Hm); [lia|].
    eexists. split; [done|]. by rewrite (to_Z_of_exact false p).
  - destruct (binary_round_exact true p) as (m & e & -> & He & Hm); [lia|].
    eexists. split; [done|]. by rewrite (to_Z_of_exact true p).
Qed.

End IntegerCells.

(** X3. An integer cell of magnitude at most 2^53 is read back exactly:
    the detour of [to_int_safe] through a float loses nothing. (Above
    that the float rounds: 2^53 + 1 is read as 2^53.) *)
Theorem to_int_safe_exact_on_integers (n : Z) :
  - 2 ^ 53 <= n <= 2 ^ 53 -> to_int_safe (CInt n) = Ok (Some n).
Proof.
  intros Hn.
  destruct (decide (n = 2 ^ 53)) as [->|]; [by vm_compute|].
  destruct (decide (n = - 2 ^ 53)) as [->|]; [by vm_compute|].
  destruct (of_Z_exact n) as (f & Hf & Hback); [lia|].
  unfold to_int_safe. cbn [isna py_float]. rewrite Hf. simpl. by rewrite Hback.
Qed.

Lemma to_int_safe_exact_on_integers_witness :
  to_int_safe (CInt 9007199254740991) = Ok (Some 9007199254740991) /\
  to_int_safe (CInt 9007199254740993) = Ok (Some 9007199254740992).
Proof.
  split.
  - apply (to_int_safe_exact_on_integers 9007199254740991). lia.
  - vm_compute. reflexivity.
Defined.

Section AssemblerNeverRaises.

Lemma datetime_new_raises y mo d h mi s e :
  datetime_new y mo d h mi s = Raise e -> is_Exception e = true.
Proof.
  unfold datetime_new. repeat case_match; intros [= <-]; done.
Qed.

Lemma build_total (row : Series) (cols_map : gmap string (option string)) :
  exists o,
    build_measurement_datetime_from_row_using_columns row cols_map = Ok o.
Proof.
  unfold build_measurement_datetime_from_row_using_columns.
  destruct (negb _); [by eexists|].
  repeat match goal with
  | |- context [to_int_safe ?v] =>
      let o := fresh "o" in
      let Ho := fresh "Ho" in
      destruct (to_int_safe_total v) as [o Ho]; rewrite Ho; clear Ho; simpl
  end.
  repeat match goal with
  | o : option Z |- _ => destruct o
  end; simpl; try (by eexists).
  all: destruct (datetime_new _ _ _ _ _ _) as [dt|e] eqn:Hdt; simpl;
    [by eexists|].
  all: apply datetime_new_raises in Hdt as ->; by eexists.
Qed.

End AssemblerNeverRaises.

(** X4. The assembler never raises: on every row and every column map,
    whatever the cells hold, it returns a text or [None]. *)
Theorem assemble_never_raises
    (row : Series) (cols_map : gmap string (option string)) :
  exists o,
    build_measurement_datetime_from_row_using_columns row cols_map = Ok o.
Proof. apply build_total. Qed.

(** ** The extractor *)

Section ExtractorFacts.

Implicit Types (found : gmap string (option string)) (r : Series).

Lemma py_float_raises_kind v e :
  isna v = false -> py_float v = Raise e ->
  e = ValueError \/ e = OverflowError.
Proof.
  destruct v as [|b|n|f|s]; simpl; intros Hna Hraise; try discriminate.
  - right. by apply of_Z_raises in Hraise.
  - right. by apply of_Z_raises in Hraise.
  - left. by apply of_string_raises in Hraise.
Qed.

Lemma float_or_None_Ok v : convertible v <-> exists o, float_or_None v = Ok o.
Proof.
  unfold convertible, float_or_None. destruct (isna v) eqn:Hna.
  - split; [by eexists | by left].
  - split.
    + intros [?|[f ->]]; [done | by eexists].
    + intros [o Ho]. right. destruct (py_float v); [by eexists | done].
Qed.

Lemma float_or_None_raises v e :
  float_or_None v = Raise e -> e = ValueError \/ e = OverflowError.
Proof.
  unfold float_or_None. destruct (isna v) eqn:Hna; [done|].
  destruct (py_float v) as [f|e'] eqn:Hf; [done|]. intros [= <-].
  by apply (py_float_raises_kind v).
Qed.

Lemma extract_row_Ok found r :
  row_convertible found r <-> exists x, extract_row found r = Ok x.
Proof.
  unfold row_convertible, numeric_fields, extract_row.
  rewrite !Forall_cons, !float_or_None_Ok.
  destruct (build_total r found) as [dt ->]. simpl.
  split.
  - intros ([t ->] & [h ->] & [d ->] & _). by eexists.
  - intros [x Hx].
    destruct (float_or_None (field_of r found "air_temperature")); [|done].
    destruct (float_or_None (field_of r found "relative_humidity")); [|done].
    destruct (float_or_None (field_of r found "device_height")); [|done].
    split; [by eexists|]. split; [by eexists|].
    split; [by eexists | constructor].
Qed.

Lemma extract_row_raises found r e :
  extract_row found r = Raise e -> e = ValueError \/ e = OverflowError.
Proof.
  unfold extract_row. destruct (build_total r found) as [dt ->]. simpl.
  destruct (float_or_None (field_of r found "air_temperature")) eqn:H1;
    simpl; [|intros [= <-]; by eapply float_or_None_raises].
  destruct (float_or_None (field_of r found "relative_humidity")) eqn:H2;
    simpl; [|intros [= <-]; by eapply float_or_None_raises].
  destruct (float_or_None (field_of r found "device_height")) eqn:H3;
    simpl; [done|intros [= <-]; by eapply float_or_None_raises].
Qed.

Lemma extract_rows_Ok found (rs : list Series) (out : list ExtractedRow) :
  extract_rows found rs = Ok out <->
  Forall2 (fun r x => extract_row found r = Ok x) rs out.
Proof.
  revert out. induction rs as [|r rs IH]; intros out; simpl.
  - split; [intros [= <-]; constructor | by intros ->%Forall2_nil_inv_l].
  - split.
    + destruct (extract_row found r) as [x|] eqn:Hx; [simpl|done].
      destruct (extract_rows found rs) as [xs|] eqn:Hxs; [simpl|done].
      intros [= <-]. constructor; [done | by apply IH].
    + intros (x & xs & Hx & Hxs & ->)%Forall2_cons_inv_l.
      apply IH in Hxs. by rewrite Hx, Hxs.
Qed.

Lemma extract_rows_raises found (rs : list Series) e :
  extract_rows found rs = Raise e -> e = ValueError \/ e = OverflowError.
Proof.
  induction rs as [|r rs IH]; simpl; [done|].
  destruct (extract_row found r) as [x|e'] eqn:Hx; simpl;
    [|intros [= <-]; by eapply extract_row_raises].
  destruct (extract_rows found rs) as [xs|e'] eqn:Hxs; simpl; [done|].
  intros [= <-]. by apply IH.
Qed.

Lemma extract_rows_convertible found (rs : list Series) :
  Forall (row_convertible found) rs <->
  exists out, extract_rows found rs = Ok out.
Proof.
  induction rs as [|r rs IH]; simpl.
  - split; [by eexists | constructor].
  - rewrite Forall_cons, IH, extract_row_Ok. split.
    + intros [[x ->] [xs ->]]. by eexists.
    + intros [out Hout]. destruct (extract_row found r); [|done].
      destruct (extract_rows found rs); [|done]. split; by eexists.
Qed.

(** How a call of the extractor unfolds, by the first cell of the frame. *)
Lemma extract_fields_run (device_df : DataFrame) (st : effects) :
  extract_fields_from_device_df device_df st
  = match iloc_0_0 device_df with
    | Ok first =>
        (extract_rows (find_columns (columns device_df)) (iterrows device_df),
         mk_effects (stdout st ++ [PrintCell first]) (fs_ops st))
    | Raise e => (Raise e, st)
    end.
Proof.
  unfold extract_fields_from_device_df, mbind, M_bind, lift.
  by destruct (iloc_0_0 device_df).
Qed.

Lemma iloc_0_0_raises (device_df : DataFrame) e :
  iloc_0_0 device_df = Raise e -> e = IndexError.
Proof. unfold iloc_0_0. repeat case_match; congruence. Qed.

End ExtractorFacts.

(** X5. When the extractor returns, it has produced exactly one record
    per row of the feed, in order, each the extraction of its row, and it
    has printed the first cell of the feed and nothing else. *)
Theorem extract_fields_one_record_per_row
    (device_df : DataFrame) (st st' : effects) (out : list ExtractedRow) :
  extract_fields_from_device_df device_df st = (Ok out, st') ->
  Forall2 (fun r x => extract_row (find_columns (columns device_df)) r = Ok x)
    (iterrows device_df) out /\
  length out = length (frame_rows device_df) /\
  exists first,
    iloc_0_0 device_df = Ok first /\
    st' = mk_effects (stdout st ++ [PrintCell first]) (fs_ops st).
Proof.
  rewrite extract_fields_run.
  destruct (iloc_0_0 device_df) as [first|]; [|done].
  intros [= Hrows <-]. apply extract_rows_Ok in Hrows.
  split; [done|]. split; [|by eexists].
  apply Forall2_length in Hrows. unfold iterrows in Hrows.
  by rewrite length_fmap in Hrows.
Qed.

Lemma extract_fields_one_record_per_row_witness :
  length (frame_rows Sample.good_frame) = 1%nat /\
  exists out st',
    extract_fields_from_device_df Sample.good_frame no_effects = (Ok out, st')
    /\ length out = length (frame_rows Sample.good_frame).
Proof.
  split; [reflexivity|].
  destruct (extract_fields_from_device_df Sample.good_frame no_effects)
    as [[out|e] st'] eqn:Hrun; [|by vm_compute in Hrun].
  exists out, st'. split; [reflexivity|].
  exact (proj1 (proj2 (extract_fields_one_record_per_row _ _ _ _ Hrun))).
Defined.

(** In a feed whose columns are all numeric the integer identifier is
    printed as stored and recorded as a float. *)
Example numeric_feed_identifier_is_float :
  extract_fields_from_device_df numeric_frame no_effects
  = (Ok [{| ex_lamppost_id := CFloat (PyFloat.of_decimal false 123 0);
            ex_measurement_datetime := None;
            ex_air_temperature_c := Some (PyFloat.of_decimal false 215 (-1));
            ex_relative_humidity_pct := None;
            ex_device_height_m := None |}],
     mk_effects [PrintCell (CInt 123)] []).
Proof. vm_compute. reflexivity. Qed.

(** X6. The extractor returns exactly when the frame has a first cell
    (at least one row, with at least one column) and, in every row, each
    of the temperature, humidity and height cells is missing or accepted
    by [float]. *)
Theorem extract_fields_succeeds_iff (device_df : DataFrame) (st : effects) :
  (exists out st',
     extract_fields_from_device_df device_df st = (Ok out, st')) <->
  (exists first, iloc_0_0 device_df = Ok first) /\
  Forall (row_convertible (find_columns (columns device_df)))
    (iterrows device_df).
Proof.
  rewrite extract_fields_run, extract_rows_convertible.
  destruct (iloc_0_0 device_df) as [first|e].
  - split.
    + intros (out & st' & [= Hout _]). split; by eexists.
    + intros [_ [out ->]]. by eexists _, _.
  - split; [by intros (? & ? & ?) | by intros [[? ?] _]].
Qed.

(** X7. The only exceptions the extractor raises are [IndexError], for a
    frame without a first cell and before anything is printed, and
    [ValueError] or [OverflowError], from [float] on a cell, after the
    first cell has been printed. *)
Theorem extract_fields_exceptions
    (device_df : DataFrame) (st st' : effects) (e : exn) :
  extract_fields_from_device_df device_df st = (Raise e, st') ->
  (e = IndexError /\ st' = st /\ iloc_0_0 device_df = Raise IndexError) \/
  ((e = ValueError \/ e = OverflowError) /\
   exists first,
     iloc_0_0 device_df = Ok first /\
     st' = mk_effects (stdout st ++ [PrintCell first]) (fs_ops st)).
Proof.
  rewrite extract_fields_run.
  destruct (iloc_0_0 device_df) as [first|e'] eqn:Hfirst.
  - intros [= Hrows <-]. right. split; [|by eexists].
    by eapply extract_rows_raises.
  - intros [= <- <-]. left. by apply iloc_0_0_raises in Hfirst as ->.
Qed.

Lemma extract_fields_exceptions_witness :
  extract_fields_from_device_df Sample.faulty_frame no_effects
  = (Raise ValueError,
     mk_effects [PrintCell (CStr "LP2")] []) /\
  ((ValueError = IndexError /\
    mk_effects [PrintCell (CStr "LP2")] [] = no_effects /\
    iloc_0_0 Sample.faulty_frame = Raise IndexError) \/
   ((ValueError = ValueError \/ ValueError = OverflowError) /\
    exists first,
      iloc_0_0 Sample.faulty_frame = Ok first /\
      mk_effects [PrintCell (CStr "LP2")] []
      = mk_effects (stdout no_effects ++ [PrintCell first])
          (fs_ops no_effects))).
Proof.
  assert (extract_fields_from_device_df Sample.faulty_frame no_effects
          = (Raise ValueError, mk_effects [PrintCell (CStr "LP2")] []))
    as Hrun by (vm_compute; reflexivity).
  split; [exact Hrun|].
  exact (extract_fields_exceptions _ _ _ _ Hrun).
Defined.

(** ** The column map of a feed *)

Section FoundFacts.

Lemma find_column_Some (cols substrings : list string) (col : string) :
  find_column_by_substring cols substrings = Some col ->
  col ∈ cols /\ qualifies substrings col.
Proof.
  induction cols as [|c rest IH]; simpl; [done|].
  destruct (all_substrings_in substrings c) eqn:Hc.
  - intros [= <-]. split; [left | by apply all_substrings_in_iff].
  - intros [Hin Hq]%IH. split; [by right | done].
Qed.

Lemma substring_of_empty (s : string) : PyStr.is_substring s "" -> s = "".
Proof.
  intros (before & after & Heq). destruct before; [|discriminate Heq].
  by destruct s.
Qed.

Lemma qualifies_nonempty (s : string) (rest : list string) (col : string) :
  s <> "" -> qualifies (s :: rest) col -> col <> "".
Proof.
  intros Hs Hq%Forall_cons_1 ->. destruct Hq as [Hq _].
  by apply substring_of_empty in Hq.
Qed.

Lemma find_columns_lookup_Some (cols : list string) (key : string)
    (v : option string) :
  find_columns cols !! key = Some v ->
  key ∈ ["lamppost_id"; "air_temperature"; "relative_humidity";
         "device_height"; "measurement_year"; "measurement_month";
         "measurement_day"; "measurement_hour"; "measurement_minute";
         "measurement_second"] /\
  v = find_column_by_substring cols (SEARCH_KEYS !!! key).
Proof.
  unfold find_columns. cbn [foldl].
  pose (f := fun k => find_column_by_substring cols (SEARCH_KEYS !!! k)).
  repeat match goal with
  | |- context [find_column_by_substring cols (SEARCH_KEYS !!! ?k)] =>
      change (find_column_by_substring cols (SEARCH_KEYS !!! k)) with (f k)
  end.
  clearbody f. rewrite !lookup_insert_Some, lookup_empty.
  intros Hcases.
  repeat (destruct Hcases as [[<- <-]|[_ Hcases]];
          [split; [repeat constructor | done]|]).
  done.
Qed.

Lemma search_keys_nonempty (key : string) :
  key ∈ ["lamppost_id"; "air_temperature"; "relative_humidity";
         "device_height"; "measurement_year"; "measurement_month";
         "measurement_day"; "measurement_hour"; "measurement_minute";
         "measurement_second"] ->
  exists s rest, SEARCH_KEYS !!! key = s :: rest /\ s <> "".
Proof.
  intros Hkey.
  repeat (apply elem_of_cons in Hkey as [->|Hkey];
          [eexists _, _; split; [by vm_compute | done]|]).
  by apply elem_of_nil in Hkey.
Qed.

End FoundFacts.

(** X8. The column map built for a feed has entries for the ten semantic
    fields only, and a column it gives for a field is a header of the
    feed, contains every substring searched for that field, and is not
    the empty name: it counts as resolved wherever the program tests it. *)
Theorem find_columns_sound (cols : list string) (key col : string) :
  find_columns cols !! key = Some (Some col) ->
  is_Some (SEARCH_KEYS !! key) /\
  col ∈ cols /\
  qualifies (SEARCH_KEYS !!! key) col /\
  resolved (find_columns cols) key col.
Proof.
  intros Hlookup.
  destruct (find_columns_lookup_Some _ _ _ Hlookup) as [Hkey Hfind].
  symmetry in Hfind. apply find_column_Some in Hfind as [Hin Hq].
  destruct (search_keys_nonempty key Hkey) as (s & rest & Hsubs & Hs).
  split.
  { clear -Hkey.
    repeat (apply elem_of_cons in Hkey as [->|Hkey];
            [eexists; vm_compute; reflexivity|]).
    by apply elem_of_nil in Hkey. }
  split; [done|]. split; [done|]. split; [done|].
  rewrite Hsubs in Hq. by eapply qualifies_nonempty.
Qed.

Lemma find_columns_sound_witness :
  find_columns (columns Sample.good_frame) !! "air_temperature"
    = Some (Some "Air temperature (C)") /\
  "Air temperature (C)" ∈ columns Sample.good_frame /\
  resolved (find_columns (columns Sample.good_frame)) "air_temperature"
    "Air temperature (C)".
Proof.
  assert (find_columns (columns Sample.good_frame) !! "air_temperature"
          = Some (Some "Air temperature (C)")) as Hlookup
    by (vm_compute; reflexivity).
  split; [exact Hlookup|].
  pose proof (find_columns_sound _ _ _ Hlookup) as (_ & Hin & _ & Hres).
  split; [exact Hin | exact Hres].
Defined.

(** ** The loop over the locations *)

Section CollectFacts.

Lemma bind_print {A} (l : line) (k : unit -> M A) (st : effects) :
  (print l ≫= k) st = k () (mk_effects (stdout st ++ [l]) (fs_ops st)).
Proof. done. Qed.

Lemma active_url_default (w : World) (gdf_row : Series) :
  truthy (find_active_url_from_row w gdf_row) = true ->
  exists url,
    find_active_url_from_row w gdf_row = Some url /\
    url <> "" /\ PyStr.strip url = url.
Proof.
  intros Htruthy.
  pose proof (first_active_url_spec w gdf_row DEVICE_URL_COLUMNS) as Hspec.
  unfold find_active_url_from_row in *.
  destruct (first_active_url w gdf_row DEVICE_URL_COLUMNS) as [url|];
    [|done].
  destruct Hspec as (_ & c & _ & _ & (v & _ & _ & -> & Hne) & _).
  eexists. split; [done|]. split; [done | apply strip_idempotent].
Qed.


Lemma collected_in_cons (w : World) (idx : nat) (gdf_row : Series)
    (rest : list Series) (r : OutRow cell) :
  collected_in w (S idx) rest r -> collected_in w idx (gdf_row :: rest) r.
Proof.
  intros (i & g & url & Hi & Hfrom). exists (S i), g, url.
  split; [done|]. by rewrite Nat.add_succ_r.
Qed.

Lemma collect_grows (w : World) (gdf : list Series) :
  forall idx collected st out st',
    collect w idx gdf collected st = (Ok out, st') ->
    exists more,
      out = collected ++ more /\
      (length more <= length gdf)%nat /\
      Forall (fun frame =>
                frame <> [] /\ Forall (collected_in w idx gdf) frame) more.
Proof.
  induction gdf as [|gdf_row rest IH]; intros idx collected st out st';
    cbn [collect].
  - intros [= <- _]. exists []. by rewrite app_nil_r.
  - assert (forall collected1 st1,
              collect w (S idx) rest collected1 st1 = (Ok out, st') ->
              exists more,
                out = collected1 ++ more /\
                (length more <= length rest)%nat /\
                Forall (fun frame =>
                          frame <> [] /\
                          Forall (collected_in w idx (gdf_row :: rest)) frame)
                  more)
      as Hrest.
    { intros collected1 st1 (more & -> & Hlen & Hmore)%IH. exists more.
      split; [done|]. split; [done|].
      eapply Forall_impl; [exact Hmore|]. intros frame [Hne Hrows].
      split; [done|]. eapply Forall_impl; [exact Hrows|].
      intros r. apply collected_in_cons. }
    assert (forall st1,
              collect w (S idx) rest collected st1 = (Ok out, st') ->
              exists more,
                out = collected ++ more /\
                (length more <= length (gdf_row :: rest))%nat /\
                Forall (fun frame =>
                          frame <> [] /\
                          Forall (collected_in w idx (gdf_row :: rest)) frame)
                  more)
      as Hskip.
    { intros st1 (more & -> & Hlen & Hmore)%Hrest. exists more.
      split; [done|]. split; [simpl; lia | done]. }
    destruct (negb _) eqn:Hurl; [rewrite bind_print; apply Hskip|].
    apply negb_false_iff, active_url_default in Hurl
      as (url & Hurl & Hne & Hstrip).
    rewrite Hurl. change (default "" (Some url)) with url.
    rewrite bind_print.
    destruct (session_get w idx url) as [content|] eqn:Hget;
      [|rewrite bind_print; apply Hskip].
    destruct (read_csv w content) as [device_df|] eqn:Hparse;
      [|rewrite bind_print; apply Hskip].
    unfold mbind at 1, M_bind at 1.
    destruct (extract_fields_from_device_df device_df _)
      as [[extracted|e] st1] eqn:Hextract; [|done].
    case_bool_decide as Hempty; [rewrite bind_print; apply Hskip|].
    destruct (find_gdb_latlon gdf_row) as [lat lon] eqn:Hlatlon.
    intros (more & -> & Hlen & Hmore)%Hrest.
    exists ((attach lat lon url <$> extracted) :: more).
    split; [by rewrite <- app_assoc|]. split; [simpl; lia|].
    constructor; [|done]. split.
    + by destruct extracted.
    + apply Forall_fmap, Forall_forall. intros x Hx.
      exists 0%nat, gdf_row, url. split; [done|].
      rewrite Nat.add_0_r.
      eexists content, device_df, _, extracted, st1, x.
      rewrite Hlatlon. by repeat split.
Qed.

Lemma new_rows_collected (w : World) (r : OutRow cell) :
  r ∈ new_rows w ->
  exists gdf x,
    layer w = Some gdf /\ r = normalize_datetime w x /\
    collected_in w 0 gdf x.
Proof.
  unfold new_rows.
  destruct (layer w) as [gdf|]; [|by intros ?%elem_of_nil].
  destruct (collect w 0 gdf [] no_effects) as [[collected|e] st] eqn:Hrun;
    [|by intros ?%elem_of_nil].
  apply collect_grows in Hrun as (more & -> & _ & Hmore). simpl.
  intros (x & -> & Hx)%list_elem_of_fmap. exists gdf, x.
  split; [done|]. split; [done|].
  apply list_elem_of_In, in_concat in Hx as (frame & Hframe & Hx).
  apply list_elem_of_In in Hframe, Hx.
  rewrite Forall_forall in Hmore. destruct (Hmore frame Hframe) as [_ Hrows].
  rewrite Forall_forall in Hrows. exact (Hrows x Hx).
Qed.

Lemma oblivious_bind {A B} (m : M A) (k : A -> M B) :
  oblivious m -> (forall a, oblivious (k a)) -> oblivious (m ≫= k).
Proof.
  intros Hm Hk st st0. unfold mbind, M_bind. specialize (Hm st st0).
  destruct (m st) as [[a|e] st1], (m st0) as [[a0|e0] st2];
    simpl in *; try congruence.
  injection Hm as ->. apply Hk.
Qed.

Lemma oblivious_print l : oblivious (print l).
Proof. done. Qed.

Lemma oblivious_extract device_df :
  oblivious (extract_fields_from_device_df device_df).
Proof.
  intros st st0. rewrite !extract_fields_run.
  by destruct (iloc_0_0 device_df).
Qed.

Lemma oblivious_collect w idx gdf collected :
  oblivious (collect w idx gdf collected).
Proof.
  revert idx collected.
  induction gdf as [|gdf_row rest IH]; intros idx collected; cbn [collect].
  - done.
  - destruct (negb _).
    { apply oblivious_bind; [apply oblivious_print | intros _; apply IH]. }
    apply oblivious_bind; [apply oblivious_print | intros _].
    destruct (session_get w idx _) as [content|];
      [|apply oblivious_bind; [apply oblivious_print | intros _; apply IH]].
    destruct (read_csv w content) as [device_df|];
      [|apply oblivious_bind; [apply oblivious_print | intros _; apply IH]].
    apply oblivious_bind; [apply oblivious_extract | intros extracted].
    case_bool_decide.
    + apply oblivious_bind; [apply oblivious_print | intros _; apply IH].
    + destruct (find_gdb_latlon gdf_row). apply IH.
Qed.

End CollectFacts.

(** X9. The loop over the locations only appends to the buffer of
    collected frames: what was collected before stays, in place; at most
    one frame is added per location; and no added frame is empty, so an
    empty buffer after the loop means that no record was collected. *)
Theorem collect_appends_nonempty_frames
    (w : World) (idx : nat) (gdf : list Series)
    (collected out : list (list (OutRow cell))) (st st' : effects) :
  collect w idx gdf collected st = (Ok out, st') ->
  exists more,
    out = collected ++ more /\
    (length more <= length gdf)%nat /\
    Forall (fun frame => frame <> []) more.
Proof.
  intros (more & -> & Hlen & Hmore)%collect_grows. exists more.
  split; [done|]. split; [done|].
  eapply Forall_impl; [exact Hmore | by intros frame [? _]].
Qed.

Lemma collect_appends_nonempty_frames_witness :
  exists out st',
    collect Sample.three_failures_then_good 0
      [Sample.no_url_location;
       Sample.location "http://down/" Sample.here Sample.there;
       Sample.location "http://junk/" Sample.here Sample.there;
       Sample.location "http://a/" Sample.here Sample.there]
      [] no_effects = (Ok out, st') /\
    length out = 1%nat /\
    exists more,
      out = [] ++ more /\ (length more <= 4)%nat /\
      Forall (fun frame => frame <> []) more.
Proof.
  destruct (collect Sample.three_failures_then_good 0
              [Sample.no_url_location;
               Sample.location "http://down/" Sample.here Sample.there;
               Sample.location "http://junk/" Sample.here Sample.there;
               Sample.location "http://a/" Sample.here Sample.there]
              [] no_effects) as [[out|e] st'] eqn:Hrun;
    [|by vm_compute in Hrun].
  exists out, st'. split; [reflexivity|]. split.
  - vm_compute in Hrun. by injection Hrun as <- _.
  - exact (collect_appends_nonempty_frames _ _ _ _ _ _ _ Hrun).
Defined.



(** X19. In every newly collected row the temperature, the humidity and
    the height are floats or missing, never text (the rows read back from
    the output file, in contrast, hold text). *)
Theorem new_rows_hold_floats (w : World) (r : OutRow cell) :
  r ∈ new_rows w ->
  float_or_missing (air_temperature_c r) /\
  float_or_missing (relative_humidity_pct r) /\
  float_or_missing (device_height_m r).
Proof.
  intros (gdf & x & _ & -> & idx & gdf_row & url & _ & Hfrom)
    %new_rows_collected.
  destruct Hfrom as (content & device_df & st & extracted & st' & ex
                     & _ & _ & _ & _ & _ & ->).
  assert (forall f, float_or_missing (float_cell f)) as Hfloat.
  { intros [f|]; [right; by eexists | by left]. }
  repeat split; apply Hfloat.
Qed.

Lemma new_rows_hold_floats_witness :
  let r :=
    mk_row (CStr "LP1") (Some "2024-03-05T00:00:00") (Sample.dec 215 (-1))
      (Sample.dec 600 (-1)) (Sample.dec 32 (-1)) (Sample.dec 123 (-2))
      (Sample.dec 456 (-2)) (Some "http://a/") in
  r ∈ new_rows Sample.rerun /\
  float_or_missing (air_temperature_c r) /\
  float_or_missing (relative_humidity_pct r) /\
  float_or_missing (device_height_m r).
Proof.
  intros r.
  assert (r ∈ new_rows Sample.rerun) as Hr.
  { vm_compute. apply list_elem_of_here. }
  split; [exact Hr|]. exact (new_rows_hold_floats _ _ Hr).
Defined.

(** X11. A location without device URL, whose request fails, or whose
    response does not parse, is skipped without trace in the result: the
    loop ends as it would have without that location (the positions of
    the later locations kept), and the output path is left alone. *)
Theorem guarded_failure_is_skipped
    (w : World) (idx : nat) (gdf_row : Series) (rest : list Series)
    (collected : list (list (OutRow cell))) (st : effects) :
  guarded_failure w idx gdf_row ->
  (collect w idx (gdf_row :: rest) collected st).1
  = (collect w (S idx) rest collected st).1 /\
  fs_ops (collect w idx (gdf_row :: rest) collected st).2 = fs_ops st.
Proof.
  intros Hfail. split; [|apply quiet_collect].
  unfold guarded_failure in Hfail. cbn [collect].
  destruct (find_active_url_from_row w gdf_row) as [url|] eqn:Hurl.
  - destruct (active_url_default w gdf_row) as (url' & Hurl' & Hne & _).
    { assert (url <> "") as Hne.
      { pose proof (first_active_url_spec w gdf_row DEVICE_URL_COLUMNS) as H.
        unfold find_active_url_from_row in Hurl. rewrite Hurl in H.
        by destruct H as (_ & c & _ & _ & (v & _ & _ & _ & Hne) & _). }
      rewrite Hurl. simpl. by destruct (String.eqb_spec url ""). }
    rewrite Hurl in Hurl'. injection Hurl' as <-.
    assert (truthy (Some url) = true) as ->.
    { simpl. by destruct (String.eqb_spec url ""). }
    cbn [negb]. change (default "" (Some url)) with url.
    rewrite bind_print.
    destruct (session_get w idx url) as [content|].
    + rewrite Hfail, bind_print. apply oblivious_collect.
    + rewrite bind_print. apply oblivious_collect.
  - cbn [truthy negb]. rewrite bind_print. apply oblivious_collect.
Qed.

Lemma guarded_failure_is_skipped_witness :
  guarded_failure Sample.three_failures_then_good 1
    (Sample.location "http://down/" Sample.here Sample.there) /\
  (collect Sample.three_failures_then_good 1
     [Sample.location "http://down/" Sample.here Sample.there;
      Sample.location "http://a/" Sample.here Sample.there] [] no_effects).1
  = (collect Sample.three_failures_then_good 2
       [Sample.location "http://a/" Sample.here Sample.there]
       [] no_effects).1.
Proof.
  assert (guarded_failure Sample.three_failures_then_good 1
            (Sample.location "http://down/" Sample.here Sample.there))
    as Hfail by (vm_compute; exact I).
  split; [exact Hfail|].
  exact (proj1 (guarded_failure_is_skipped _ _ _ _ _ _ Hfail)).
Defined.

(** ** Reconciliation and the end of a run *)

Section ReconcileFacts.

Implicit Types (data : list (OutRow (option string)))
  (seen : gset (option string * option string)).

Lemma drop_duplicates_length seen data :
  (length (drop_duplicates seen data) <= length data)%nat.
Proof. apply sublist_length, drop_duplicates_sublist. Qed.

Lemma drop_duplicates_all_seen seen data :
  Forall (fun r => dedup_key r ∈ seen) data -> drop_duplicates seen data = [].
Proof.
  induction 1 as [|r data Hr _ IH]; simpl; [done|].
  by rewrite decide_True.
Qed.

Lemma drop_duplicates_unique_prefix seen data1 data2 :
  NoDup (dedup_key <$> data1) ->
  Forall (fun r => dedup_key r ∉ seen) data1 ->
  drop_duplicates seen (data1 ++ data2)
  = data1 ++
    drop_duplicates (list_to_set (dedup_key <$> data1) ∪ seen) data2.
Proof.
  revert seen. induction data1 as [|r data1 IH]; intros seen Hnodup Hfresh.
  - simpl. by rewrite (left_id_L ∅ (∪)).
  - rewrite fmap_cons in Hnodup. apply NoDup_cons in Hnodup as [Hr Hnodup].
    apply Forall_cons in Hfresh as [Hfresh Hrest]. simpl.
    rewrite decide_False by done. f_equal. rewrite IH; [|done|].
    + change (list_fmap _ _ dedup_key data1) with (dedup_key <$> data1).
      by rewrite (comm_L (∪) {[dedup_key r]} (list_to_set _)),
        <- (assoc_L (∪)).
    + rewrite Forall_forall in Hrest |- *. intros x Hx.
      intros [Heq%elem_of_singleton|Hin]%elem_of_union.
      * apply Hr. rewrite <- Heq. by apply list_elem_of_fmap_2.
      * by apply (Hrest x).
Qed.

Lemma drop_duplicates_unique data :
  NoDup (dedup_key <$> data) -> drop_duplicates ∅ data = data.
Proof.
  intros Hnodup.
  rewrite <- (app_nil_r data) at 1.
  rewrite drop_duplicates_unique_prefix; [by rewrite app_nil_r | done |].
  apply Forall_forall. intros ? _. apply not_elem_of_empty.
Qed.

(** What [main] does once the loop has collected something. *)
Lemma main_after_collect (w : World) (gdf : list Series)
    (collected : list (list (OutRow cell))) (st : effects) :
  layer w = Some gdf ->
  collect w 0 gdf [] no_effects = (Ok collected, st) ->
  collected <> [] ->
  main w no_effects
  = (write_result w,
     {| stdout :=
          stdout st ++ read_warning w ++
          [DedupReport
             (length (prior_rows w ++ new_rows w)
              - length (reconcile w (prior_rows w) (new_rows w)))
             (length (reconcile w (prior_rows w) (new_rows w)))] ++
          write_confirmation w;
        fs_ops :=
          reads_before_write w ++
          [ToCsv (reconcile w (prior_rows w) (new_rows w))] |}).
Proof.
  intros Hlayer Hcollect Hne.
  pose proof (quiet_collect w 0 gdf [] no_effects) as Hquiet.
  rewrite Hcollect in Hquiet. simpl in Hquiet.
  unfold main, new_rows, prior_rows, reconcile, read_warning,
    reads_before_write, write_result, write_confirmation.
  rewrite Hlayer. unfold mbind at 1, M_bind at 1. rewrite Hcollect.
  rewrite bool_decide_eq_false_2 by done.
  destruct st as [out ops]. simpl in Hquiet. subst ops.
  destruct (out_csv w) as [| |existing], (to_csv_raises w) as [e|];
    unfold mbind, M_bind, touch, print, lift, mret, M_ret; cbn;
    by rewrite ?length_fmap, <- ?app_assoc, ?app_nil_r.
Qed.

End ReconcileFacts.

(** X12. Whatever the world, a run accesses the output path in one of
    three ways only: not at all; an existence test followed by one write,
    when there is no file; or an existence test, one read and one write,
    when there is a file. It never reads without writing afterwards and
    never writes twice. *)
Theorem main_output_path_accesses (w : World) :
  fs_ops (main w no_effects).2 = [] \/
  fs_ops (main w no_effects).2
  = reads_before_write w ++ [ToCsv (reconcile w (prior_rows w) (new_rows w))].
Proof.
  destruct (layer w) as [gdf|] eqn:Hlayer.
  - pose proof (quiet_collect w 0 gdf [] no_effects) as Hquiet.
    destruct (collect w 0 gdf [] no_effects) as [[collected|e] st] eqn:Hrun.
    + destruct (decide (collected = [])) as [->|Hne].
      * left. unfold main. rewrite Hlayer.
        unfold mbind at 1, M_bind at 1. by rewrite Hrun.
      * right. by rewrite (main_after_collect w gdf collected st).
    + left. unfold main. rewrite Hlayer.
      unfold mbind at 1, M_bind at 1. by rewrite Hrun.
  - left. unfold main. by rewrite Hlayer.
Qed.

(** X13. Once the loop has collected at least one frame, the run prints,
    after the lines of the loop, the warning about an unreadable output
    file if there is one and then the report, whose two numbers, rows
    removed and rows kept, add up to the number of prior and new rows.
    What follows depends on the write: when [to_csv] succeeds the run
    prints the confirmation and returns normally; when [to_csv] raises,
    the run ends with that exception and prints no confirmation. *)
Theorem main_report_adds_up (w : World) (gdf : list Series)
    (collected : list (list (OutRow cell))) (st : effects) :
  layer w = Some gdf ->
  collect w 0 gdf [] no_effects = (Ok collected, st) ->
  collected <> [] ->
  exists removed kept,
    (main w no_effects).1 = write_result w /\
    stdout (main w no_effects).2
    = stdout st ++ read_warning w ++ [DedupReport removed kept] ++
      write_confirmation w /\
    kept = length (reconcile w (prior_rows w) (new_rows w)) /\
    (removed + kept = length (prior_rows w) + length (new_rows w))%nat.
Proof.
  intros Hlayer Hcollect Hne.
  rewrite (main_after_collect w gdf collected st) by done.
  eexists _, _. split; [done|]. split; [done|]. split; [done|].
  rewrite length_app.
  pose proof (drop_duplicates_length ∅
                (coerce_id w <$> (prior_rows w ++ new_rows w))) as Hle.
  unfold reconcile. rewrite length_fmap, length_app in Hle. lia.
Qed.

(** The second run over a reading already on file, on a path that cannot
    be written: the report is printed, the run ends with the [OSError] of
    [to_csv], and nothing is printed after the report. *)
Lemma main_report_adds_up_witness :
  exists removed kept,
    (main (unwritable Sample.rerun OSError) no_effects).1 = Raise OSError /\
    stdout (main (unwritable Sample.rerun OSError) no_effects).2
    = [Fetching 0 "http://a/"; PrintCell (CStr "LP1")] ++
      [] ++ [DedupReport removed kept] ++ [] /\
    kept = 1%nat /\ (removed + kept = 1 + 1)%nat.
Proof.
  destruct (collect (unwritable Sample.rerun OSError) 0
              [Sample.location "http://a/" (Sample.dec 123 (-2))
                 (Sample.dec 456 (-2))] [] no_effects)
    as [[collected|e] st] eqn:Hrun; [|by vm_compute in Hrun].
  assert (collected <> []) as Hne.
  { vm_compute in Hrun. by injection Hrun as <- _. }
  assert (stdout st = [Fetching 0 "http://a/"; PrintCell (CStr "LP1")])
    as Hout.
  { vm_compute in Hrun. by injection Hrun as _ <-. }
  rewrite <- Hout.
  exact (main_report_adds_up (unwritable Sample.rerun OSError) _ collected st
           eq_refl Hrun Hne).
Defined.

(** X14. When the rows on file have pairwise different keys, a run keeps
    all of them, unchanged and in their order, at the head of the dataset
    it writes. *)
Theorem prior_rows_are_kept
    (w : World) (final : list (OutRow (option string))) :
  ToCsv final ∈ fs_ops (main w no_effects).2 ->
  NoDup (dedup_key <$> (coerce_id w <$> prior_rows w)) ->
  (coerce_id w <$> prior_rows w) `prefix_of` final.
Proof.
  intros ->%main_writes_reconciled Hnodup. unfold reconcile.
  rewrite fmap_app, drop_duplicates_unique_prefix; [by eexists | done |].
  apply Forall_forall. intros ? _. apply not_elem_of_empty.
Qed.

Ltac decide_it := apply (bool_decide_unpack _); vm_compute; exact I.

Lemma prior_rows_are_kept_witness :
  ToCsv [row_on_file] ∈ fs_ops (main Sample.rerun no_effects).2 /\
  (coerce_id Sample.rerun <$> prior_rows Sample.rerun)
    `prefix_of` [row_on_file].
Proof.
  assert (ToCsv [row_on_file] ∈ fs_ops (main Sample.rerun no_effects).2)
    as Hrun.
  { vm_compute. do 2 apply list_elem_of_further. apply list_elem_of_here. }
  split; [exact Hrun|].
  apply (prior_rows_are_kept Sample.rerun [row_on_file] Hrun). decide_it.
Defined.

(** X15. When, moreover, the key of every new row is already on file, the
    dataset written is exactly the rows on file: running again over the
    same readings adds nothing. *)
Theorem rerun_adds_nothing
    (w : World) (final : list (OutRow (option string))) :
  ToCsv final ∈ fs_ops (main w no_effects).2 ->
  NoDup (dedup_key <$> (coerce_id w <$> prior_rows w)) ->
  Forall (fun r => dedup_key (coerce_id w r)
                   ∈ dedup_key <$> (coerce_id w <$> prior_rows w))
    (new_rows w) ->
  final = coerce_id w <$> prior_rows w.
Proof.
  intros ->%main_writes_reconciled Hnodup Hold. unfold reconcile.
  rewrite fmap_app, drop_duplicates_unique_prefix; [|done|].
  - rewrite drop_duplicates_all_seen; [by rewrite app_nil_r|].
    apply Forall_fmap. eapply Forall_impl; [exact Hold|].
    intros r Hr. simpl. apply elem_of_union_l, elem_of_list_to_set, Hr.
  - apply Forall_forall. intros ? _. apply not_elem_of_empty.
Qed.

Lemma rerun_adds_nothing_witness :
  ToCsv [row_on_file] ∈ fs_ops (main Sample.rerun no_effects).2 /\
  length (new_rows Sample.rerun) = 1%nat /\
  [row_on_file] = coerce_id Sample.rerun <$> prior_rows Sample.rerun.
Proof.
  assert (ToCsv [row_on_file] ∈ fs_ops (main Sample.rerun no_effects).2)
    as Hrun.
  { vm_compute. do 2 apply list_elem_of_further. apply list_elem_of_here. }
  split; [exact Hrun|]. split; [vm_compute; reflexivity|].
  apply (rerun_adds_nothing Sample.rerun [row_on_file] Hrun); decide_it.
Defined.

(** X16. When the prior and new rows together have pairwise different
    keys, nothing is dropped: the dataset written is all of them, prior
    rows first. *)
Theorem distinct_keys_all_written
    (w : World) (final : list (OutRow (option string))) :
  ToCsv final ∈ fs_ops (main w no_effects).2 ->
  NoDup (dedup_key <$> (coerce_id w <$> (prior_rows w ++ new_rows w))) ->
  final = coerce_id w <$> (prior_rows w ++ new_rows w).
Proof.
  intros ->%main_writes_reconciled Hnodup. by apply drop_duplicates_unique.
Qed.

(** A reading of a new day is added to a file holding the reading of
    the day before: both rows are written, the one on file first. *)
Lemma distinct_keys_all_written_witness :
  let final :=
    [mk_row (Some "LP1") (Some "2024-03-04T00:00:00") (CStr "19.0")
       (CStr "55.0") (CStr "3.2") (CStr "1.23") (CStr "4.56")
       (Some "http://a/");
     mk_row (Some "LP1") (Some "2024-03-05T00:00:00") (Sample.dec 215 (-1))
       (Sample.dec 600 (-1)) (Sample.dec 32 (-1)) (Sample.dec 123 (-2))
       (Sample.dec 456 (-2)) (Some "http://a/")] in
  ToCsv final ∈ fs_ops (main next_day no_effects).2 /\
  length (prior_rows next_day) = 1%nat /\
  length (new_rows next_day) = 1%nat /\
  dedup_key <$> final
  = [(Some "2024-03-04T00:00:00", Some "LP1");
     (Some "2024-03-05T00:00:00", Some "LP1")] /\
  final = coerce_id next_day <$> (prior_rows next_day ++ new_rows next_day).
Proof.
  intros final.
  assert (ToCsv final ∈ fs_ops (main next_day no_effects).2) as Hrun.
  { vm_compute. do 2 apply list_elem_of_further. apply list_elem_of_here. }
  split; [exact Hrun|]. split; [vm_compute; reflexivity|].
  split; [vm_compute; reflexivity|]. split; [vm_compute; reflexivity|].
  apply (distinct_keys_all_written next_day final Hrun). decide_it.
Defined.

(** ** The text of a timestamp determines it *)

Section TimestampFacts.

Lemma zero_pad_2_read n :
  0 <= n <= 99 -> (PyFloat.digits 0 0 (zero_pad 2 n)).1.1 = n.
Proof.
  intros Hn.
  assert (forallb (fun n => (PyFloat.digits 0 0 (zero_pad 2 n)).1.1 =? n)
            (seqZ 0 100) = true) as Hall by (vm_compute; reflexivity).
  rewrite forallb_forall in Hall. apply Z.eqb_eq, Hall.
  apply list_elem_of_In, elem_of_seqZ. lia.
Qed.

Lemma zero_pad_2_inj a b :
  0 <= a <= 99 -> 0 <= b <= 99 -> zero_pad 2 a = zero_pad 2 b -> a = b.
Proof.
  intros Ha Hb Heq.
  rewrite <- (zero_pad_2_read a), <- (zero_pad_2_read b) by done.
  by rewrite Heq.
Qed.

Lemma all_digits_length width text :
  all_digits width text = true -> String.length text = width.
Proof. unfold all_digits. by intros [?%Nat.eqb_eq _]%andb_prop. Qed.

Lemma append_inj_length (a b r r' : string) :
  String.length a = String.length b ->
  a +:+ r = b +:+ r' -> a = b /\ r = r'.
Proof.
  revert b. induction a as [|c a IH]; intros [|c' b] Hlen Heq;
    try discriminate Hlen.
  - done.
  - injection Hlen as Hlen.
    change (String c (a +:+ r) = String c' (b +:+ r')) in Heq.
    injection Heq as -> Heq. destruct (IH b Hlen Heq) as [-> ->]. done.
Qed.

(** Reading a run of digits stops at the first character that is not a
    digit. *)
Lemma digits_run (a : string) (c : ascii) (rest : string) (acc count : Z) :
  forallb PyFloat.is_digit (list_ascii_of_string a) = true ->
  PyFloat.is_digit c = false ->
  PyFloat.digits acc count (a +:+ String c rest)
  = ((PyFloat.digits acc count a).1.1, (PyFloat.digits acc count a).1.2,
     String c rest).
Proof.
  revert acc count. induction a as [|x a IH]; intros acc count Ha Hc.
  - change ("" +:+ String c rest) with (String c rest). simpl. by rewrite Hc.
  - simpl in Ha. apply andb_prop in Ha as [Hx Ha].
    change (String x a +:+ String c rest)
      with (String x (a +:+ String c rest)).
    simpl. rewrite Hx. by apply IH.
Qed.

(** The year is written in digits only and reads back as itself. *)
Lemma year_read y :
  1 <= y <= 9999 ->
  forallb PyFloat.is_digit (list_ascii_of_string (pretty y)) = true /\
  (PyFloat.digits 0 0 (pretty y)).1.1 = y.
Proof.
  intros Hy.
  assert (forallb
            (fun y =>
               forallb PyFloat.is_digit (list_ascii_of_string (pretty y))
               && ((PyFloat.digits 0 0 (pretty y)).1.1 =? y))
            (seqZ 1 9999) = true) as Hall by (vm_compute; reflexivity).
  rewrite forallb_forall in Hall.
  destruct (andb_prop _ _ (Hall y ltac:(apply list_elem_of_In, elem_of_seqZ;
                                        lia))) as [Hdigits Hread].
  split; [done | by apply Z.eqb_eq].
Qed.

Lemma year_text_inj y y' (r r' : string) :
  1 <= y <= 9999 -> 1 <= y' <= 9999 ->
  pretty y +:+ "-" +:+ r = pretty y' +:+ "-" +:+ r' -> y = y' /\ r = r'.
Proof.
  intros Hy Hy' Heq.
  destruct (year_read y Hy) as [Hd Hv], (year_read y' Hy') as [Hd' Hv'].
  apply (f_equal (PyFloat.digits 0 0)) in Heq.
  change ("-" +:+ r) with (String "-" r) in Heq.
  change ("-" +:+ r') with (String "-" r') in Heq.
  rewrite !digits_run in Heq by done. rewrite Hv, Hv' in Heq.
  by injection Heq as -> _ ->.
Qed.

Lemma datetime_new_Ok y mo d h mi s dt :
  datetime_new y mo d h mi s = Ok dt ->
  valid_date y mo d /\ valid_time h mi s /\ dt = mk_datetime y mo d h mi s.
Proof.
  intros Hnew.
  destruct (decide (valid_date y mo d /\ valid_time h mi s)) as [[Hd Ht]|Hbad].
  - rewrite datetime_new_valid in Hnew by done. by injection Hnew as <-.
  - destruct (datetime_new_invalid _ _ _ _ _ _ Hbad) as (e & He & _).
    congruence.
Qed.

Lemma timestamp_text_inj y mo d h mi s y' mo' d' h' mi' s' :
  valid_date y mo d -> valid_time h mi s ->
  valid_date y' mo' d' -> valid_time h' mi' s' ->
  timestamp_text y mo d h mi s = timestamp_text y' mo' d' h' mi' s' ->
  (y, mo, d, h, mi, s) = (y', mo', d', h', mi', s').
Proof.
  intros (Hy & Hmo & Hd) (Hh & Hmi & Hs) (Hy' & Hmo' & Hd') (Hh' & Hmi' & Hs').
  assert (days_in_month y mo <= 31 /\ days_in_month y' mo' <= 31) as [? ?].
  { unfold days_in_month. split; repeat case_match; lia. }
  assert (forall n, 0 <= n <= 99 -> String.length (zero_pad 2 n) = 2%nat)
    as Hlen2 by (intros; by apply all_digits_length, zero_pad_2_digits).
  unfold timestamp_text. intros Heq.
  apply year_text_inj in Heq as [Ey Heq]; [|done..].
  apply append_inj_length in Heq as [Emo Heq];
    [|rewrite !Hlen2 by lia; done].
  apply (inj (String.append "-")) in Heq.
  apply append_inj_length in Heq as [Ed Heq];
    [|rewrite !Hlen2 by lia; done].
  apply (inj (String.append "T")) in Heq.
  apply append_inj_length in Heq as [Eh Heq];
    [|rewrite !Hlen2 by lia; done].
  apply (inj (String.append ":")) in Heq.
  apply append_inj_length in Heq as [Emi Heq];
    [|rewrite !Hlen2 by lia; done].
  apply (inj (String.append ":")) in Heq.
  apply zero_pad_2_inj in Emo, Ed, Eh, Emi, Heq; [|lia..].
  congruence.
Qed.

(** A text the assembler returns for a numeric date is the text of a
    valid date and time. *)
Lemma build_text_valid (row : Series) (cols_map : gmap string (option string))
    (y mo d h mi s : Z) (text : string) :
  date_part row cols_map "measurement_year" (Some y) ->
  date_part row cols_map "measurement_month" (Some mo) ->
  date_part row cols_map "measurement_day" (Some d) ->
  time_part row cols_map "measurement_hour" h ->
  time_part row cols_map "measurement_minute" mi ->
  time_part row cols_map "measurement_second" s ->
  build_measurement_datetime_from_row_using_columns row cols_map
  = Ok (Some text) ->
  valid_date y mo d /\ valid_time h mi s /\
  text = timestamp_text y mo d h mi s.
Proof.
  intros Hy Hmo Hd Hh Hmi Hs.
  rewrite (build_numeric_date _ _ _ _ _ _ _ _ Hy Hmo Hd Hh Hmi Hs).
  destruct (datetime_new y mo d h mi s) as [dt|e] eqn:Hnew.
  - apply datetime_new_Ok in Hnew as (Hdate & Htime & ->).
    intros Hrun. split; [done|]. split; [done|].
    rewrite <- strftime_text. by injection Hrun as <-.
  - apply datetime_new_raises in Hnew. simpl. rewrite Hnew. discriminate.
Qed.

End TimestampFacts.

(** X17. The text the assembler returns determines the date and time it
    was assembled from: when two rows are both given a text, and the six
    numbers read from them (year, month and day, and hour, minute and
    second with their defaults of 0) differ in any place, the two texts
    differ. *)
Theorem timestamp_text_distinguishes
    (row row' : Series) (cols_map cols_map' : gmap string (option string))
    (y mo d h mi s y' mo' d' h' mi' s' : Z) (text text' : string) :
  date_part row cols_map "measurement_year" (Some y) ->
  date_part row cols_map "measurement_month" (Some mo) ->
  date_part row cols_map "measurement_day" (Some d) ->
  time_part row cols_map "measurement_hour" h ->
  time_part row cols_map "measurement_minute" mi ->
  time_part row cols_map "measurement_second" s ->
  date_part row' cols_map' "measurement_year" (Some y') ->
  date_part row' cols_map' "measurement_month" (Some mo') ->
  date_part row' cols_map' "measurement_day" (Some d') ->
  time_part row' cols_map' "measurement_hour" h' ->
  time_part row' cols_map' "measurement_minute" mi' ->
  time_part row' cols_map' "measurement_second" s' ->
  build_measurement_datetime_from_row_using_columns row cols_map
  = Ok (Some text) ->
  build_measurement_datetime_from_row_using_columns row' cols_map'
  = Ok (Some text') ->
  (y, mo, d, h, mi, s) <> (y', mo', d', h', mi', s') ->
  text <> text'.
Proof.
  intros Hy Hmo Hd Hh Hmi Hs Hy' Hmo' Hd' Hh' Hmi' Hs' Hrun Hrun' Hne Heq.
  destruct (build_text_valid _ _ _ _ _ _ _ _ _ Hy Hmo Hd Hh Hmi Hs Hrun)
    as (Hdate & Htime & ->).
  destruct (build_text_valid _ _ _ _ _ _ _ _ _ Hy' Hmo' Hd' Hh' Hmi' Hs' Hrun')
    as (Hdate' & Htime' & ->).
  by apply Hne, timestamp_text_inj.
Qed.

Ltac time_value col :=
  apply (time_part_value _ _ _ col);
  [ compute_eq | split; [compute_eq | eexists; split; compute_eq] ].

(** Two readings of the same day, at 7 and at 8 o'clock, and the same
    day in the years 999 and 9990. *)
Lemma timestamp_text_distinguishes_witness :
  (build_measurement_datetime_from_row_using_columns
     (Sample.hour_row (CInt 2024) (CInt 3) (CInt 5) (CInt 7))
     (find_columns Sample.hour_header) = Ok (Some "2024-03-05T07:00:00") /\
   build_measurement_datetime_from_row_using_columns
     (Sample.hour_row (CInt 2024) (CInt 3) (CInt 5) (CInt 8))
     (find_columns Sample.hour_header) = Ok (Some "2024-03-05T08:00:00") /\
   "2024-03-05T07:00:00" <> "2024-03-05T08:00:00") /\
  (build_measurement_datetime_from_row_using_columns
     (Sample.date_row (CInt 999) (CInt 3) (CInt 5))
     (find_columns Sample.date_header) = Ok (Some "999-03-05T00:00:00") /\
   build_measurement_datetime_from_row_using_columns
     (Sample.date_row (CInt 9990) (CInt 3) (CInt 5))
     (find_columns Sample.date_header) = Ok (Some "9990-03-05T00:00:00") /\
   "999-03-05T00:00:00" <> "9990-03-05T00:00:00").
Proof.
  assert (build_measurement_datetime_from_row_using_columns
            (Sample.hour_row (CInt 2024) (CInt 3) (CInt 5) (CInt 7))
            (find_columns Sample.hour_header)
          = Ok (Some "2024-03-05T07:00:00")) as H7 by compute_eq.
  assert (build_measurement_datetime_from_row_using_columns
            (Sample.hour_row (CInt 2024) (CInt 3) (CInt 5) (CInt 8))
            (find_columns Sample.hour_header)
          = Ok (Some "2024-03-05T08:00:00")) as H8 by compute_eq.
  assert (build_measurement_datetime_from_row_using_columns
            (Sample.date_row (CInt 999) (CInt 3) (CInt 5))
            (find_columns Sample.date_header)
          = Ok (Some "999-03-05T00:00:00")) as H999 by compute_eq.
  assert (build_measurement_datetime_from_row_using_columns
            (Sample.date_row (CInt 9990) (CInt 3) (CInt 5))
            (find_columns Sample.date_header)
          = Ok (Some "9990-03-05T00:00:00")) as H9990 by compute_eq.
  split; (split; [eassumption|]; split; [eassumption|]).
  - refine (timestamp_text_distinguishes _ _ _ _ 2024 3 5 7 0 0 2024 3 5 8 0 0
              _ _ _ _ _ _ _ _ _ _ _ _ _ _ H7 H8 _).
    + date_value "Data measurement Year".
    + date_value "Data measurement Month".
    + date_value "Data measurement Day".
    + time_value "Data measurement Hour".
    + time_absent.
    + time_absent.
    + date_value "Data measurement Year".
    + date_value "Data measurement Month".
    + date_value "Data measurement Day".
    + time_value "Data measurement Hour".
    + time_absent.
    + time_absent.
    + discriminate.
  - refine (timestamp_text_distinguishes _ _ _ _ 999 3 5 0 0 0 9990 3 5 0 0 0
              _ _ _ _ _ _ _ _ _ _ _ _ _ _ H999 H9990 _).
    + date_value "Data measurement Year".
    + date_value "Data measurement Month".
    + date_value "Data measurement Day".
    + time_absent.
    + time_absent.
    + time_absent.
    + date_value "Data measurement Year".
    + date_value "Data measurement Month".
    + date_value "Data measurement Day".
    + time_absent.
    + time_absent.
    + time_absent.
    + discriminate.
Defined.

(** ** An output file without the key columns *)

Lemma str_get_missing (cols : list string) (r : list (option string))
    (name : string) :
  name ∉ cols -> str_get (zip cols r) name = None.
Proof.
  revert r. induction cols as [|c cols IH]; intros [|v r] Hname; try done.
  apply not_elem_of_cons in Hname as [Hne Hname]. simpl.
  rewrite decide_False by done. by apply IH.
Qed.

(** X18. When the output file has neither a [measurement_datetime] nor a
    [lamppost_id] column, every one of its rows gets the key of two
    missing values, so the rows of such a file all count as duplicates of
    its first row. *)
Theorem file_without_key_columns (w : World) (existing : StrFrame) :
  out_csv w = Readable existing ->
  "measurement_datetime" ∉ str_columns existing ->
  "lamppost_id" ∉ str_columns existing ->
  Forall (fun r => dedup_key (coerce_id w r) = (None, None)) (prior_rows w).
Proof.
  intros Hfile Hdt Hid. unfold prior_rows, existing_rows. rewrite Hfile.
  apply Forall_fmap, Forall_forall. intros r _.
  unfold dedup_key, existing_row. simpl.
  by rewrite !str_get_missing.
Qed.

Lemma file_without_key_columns_witness :
  length (prior_rows keyless_file) = 2%nat /\
  Forall (fun r => dedup_key (coerce_id keyless_file r) = (None, None))
    (prior_rows keyless_file).
Proof.
  split; [reflexivity|].
  apply (file_without_key_columns keyless_file keyless_frame).
  - reflexivity.
  - decide_it.
  - decide_it.
Defined.

(** ** More on the column matcher and on reading numbers *)

Lemma all_substrings_in_members (subs1 subs2 : list string) (col : string) :
  (forall s, s ∈ subs1 <-> s ∈ subs2) ->
  all_substrings_in subs1 col = all_substrings_in subs2 col.
Proof.
  intros Hsame. apply eq_true_iff_eq.
  rewrite !all_substrings_in_iff. unfold qualifies.
  rewrite !Forall_forall. by setoid_rewrite Hsame.
Qed.

(** X20. Only the set of required substrings matters to the column
    matcher: listing them in another order, or more than once, gives the
    same column. *)
Theorem find_column_ignores_order (cols subs1 subs2 : list string) :
  (forall s, s ∈ subs1 <-> s ∈ subs2) ->
  find_column_by_substring cols subs1 = find_column_by_substring cols subs2.
Proof.
  intros Hsame. induction cols as [|c cols IH]; simpl; [done|].
  by rewrite (all_substrings_in_members subs1 subs2 c Hsame), IH.
Qed.

Lemma find_column_ignores_order_witness :
  find_column_by_substring (columns Sample.good_frame)
    ["Data measurement"; "Year"]
  = find_column_by_substring (columns Sample.good_frame)
      ["Year"; "Data measurement"; "Year"].
Proof.
  apply find_column_ignores_order. intros s.
  rewrite !elem_of_cons, !elem_of_nil. tauto.
Defined.

(** X21. A year, month or day that arrives as text is read as its number:
    for every [n] from 0 to 9999, the decimal text of [n], and that text
    followed by [.0], both read as [n]. *)
Theorem to_int_safe_reads_decimal_text (n : Z) :
  0 <= n <= 9999 ->
  to_int_safe (CStr (pretty n)) = Ok (Some n) /\
  to_int_safe (CStr (pretty n +:+ ".0")) = Ok (Some n).
Proof.
  intros Hn.
  assert (forall text, reads_back text n = true ->
                       to_int_safe (CStr text) = Ok (Some n)) as Hread.
  { intros text. unfold reads_back.
    destruct (to_int_safe (CStr text)) as [[m|]|]; try done.
    by intros ->%Z.eqb_eq. }
  assert (forallb
            (fun n => reads_back (pretty n) n
                      && reads_back (pretty n +:+ ".0") n)
            (seqZ 0 10000) = true) as Hall by (vm_compute; reflexivity).
  rewrite forallb_forall in Hall.
  destruct (andb_prop _ _ (Hall n ltac:(apply list_elem_of_In, elem_of_seqZ;
                                        lia))) as [H1 H2].
  split; by apply Hread.
Qed.

Lemma to_int_safe_reads_decimal_text_witness :
  to_int_safe (CStr "2024") = Ok (Some 2024) /\
  to_int_safe (CStr "2024.0") = Ok (Some 2024).
Proof.
  apply (to_int_safe_reads_decimal_text 2024). lia.
Defined.

(** ** How a run can end *)

Section EndingFacts.



End EndingFacts.


